(** * streamlit_app.py: the transaction dashboard, embedded and verified

    The program is one linear script: [load_data] reads a delimited file,
    [parse_json_column] lifts one field out of a JSON text, and the
    module-level code prints a summary of the table and five guarded chart
    panels.  The development below embeds the script as state-passing code
    over the table and the list of emitted page elements, with Python's
    exceptions as an explicit outcome type. *)

From Stdlib Require Import ZArith NArith List String Ascii Bool Lia.
From Stdlib Require Import Sorted Permutation.
Import ListNotations.

Open Scope string_scope.

Set Warnings "-register-all".

(** ** Python values *)

(** A Python [str] is a sequence of code points. *)
Definition pystr := list N.

Definition ch (a : ascii) : N := N_of_ascii a.

Definition u (s : string) : pystr := map ch (list_ascii_of_string s).

Fixpoint pystr_eqb (a b : pystr) : bool :=
  match a, b with
  | [], [] => true
  | x :: a', y :: b' => N.eqb x y && pystr_eqb a' b'
  | _, _ => false
  end.

(** A Python [float].  A finite float is kept as the decimal literal it was
    read from, sign apart: [FFin neg m e] stands for (-1)^neg * m * 10^e. *)
Inductive pyfloat : Type :=
| FNaN
| FInf (neg : bool)
| FFin (neg : bool) (mant : N) (exp10 : Z).

(** The values that occur in the script: what [json.loads] produces, what a
    cell of a table read from text holds, and a parsed timestamp
    (nanoseconds since the epoch, [None] inside for NaT). *)
Inductive pyval : Type :=
| PNone
| PBool (b : bool)
| PInt (z : Z)
| PFloat (f : pyfloat)
| PStr (s : pystr)
| PList (l : list pyval)
| PDict (d : list (pystr * pyval))
| PTimestamp (t : option Z).

(** ** Exceptions *)

Inductive exn : Type :=
| FileNotFoundError
| ParserError (msg : string)
| EmptyDataError
| JSONDecodeError (msg : string)
| TypeError
| AttributeError
| OtherException (name : string)
| OtherBaseException (name : string).

(** [except Exception] catches every class but the ones that derive from
    [BaseException] directly. *)
Definition is_Exception (e : exn) : bool :=
  match e with
  | OtherBaseException _ => false
  | _ => true
  end.

Definition exn_message (e : exn) : string :=
  match e with
  | FileNotFoundError => "No such file or directory"
  | ParserError m => m
  | EmptyDataError => "No columns to parse from file"
  | JSONDecodeError m => m
  | TypeError => "TypeError"
  | AttributeError => "AttributeError"
  | OtherException n => n
  | OtherBaseException n => n
  end.

Inductive pyresult (A : Type) : Type :=
| Ok (a : A)
| Raise (e : exn).
Arguments Ok {A} a.
Arguments Raise {A} e.

(** ** Dictionaries *)

Module Dict.

(** [dict(pairs)]: later bindings of a key replace earlier ones, the key
    keeps its first position. *)
Fixpoint set (k : pystr) (v : pyval) (d : list (pystr * pyval))
  : list (pystr * pyval) :=
  match d with
  | [] => [(k, v)]
  | (k', v') :: d' =>
      if pystr_eqb k k' then (k, v) :: d' else (k', v') :: set k v d'
  end.

Definition of_pairs (ps : list (pystr * pyval)) : list (pystr * pyval) :=
  fold_left (fun d kv => set (fst kv) (snd kv) d) ps [].

Fixpoint lookup (k : pystr) (d : list (pystr * pyval)) : option pyval :=
  match d with
  | [] => None
  | (k', v) :: d' => if pystr_eqb k k' then Some v else lookup k d'
  end.

(** [d.get(k)]: the value, or [None]. *)
Definition get (k : pystr) (d : list (pystr * pyval)) : pyval :=
  match lookup k d with
  | Some v => v
  | None => PNone
  end.

End Dict.

(** ** The JSON decoder

    [json.loads] of the standard library, for a [str] argument, after
    json/decoder.py and json/scanner.py: the grammar of RFC 8259 plus the
    literals NaN, Infinity and -Infinity, strict string scanning.  Every
    failure of the decoder is a [JSONDecodeError]; the interpreter's own
    resource limits are outside the model. *)

Module Json.

Local Open Scope N_scope.

(** Outcome of a scanning step: the value and the unread input, a
    decoding error, or recursion budget exhausted. *)
Inductive scan (A : Type) : Type :=
| SOk (a : A) (rest : pystr)
| SErr (msg : string)
| SFuel.
Arguments SOk {A} a rest.
Arguments SErr {A} msg.
Arguments SFuel {A}.

(** The double quote, code point 34. *)
Definition quote : N := 34.

Definition is_ws (c : N) : bool :=
  (c =? ch " ") || (c =? 9) || (c =? 10) || (c =? 13).

Fixpoint skip_ws (s : pystr) : pystr :=
  match s with
  | c :: s' => if is_ws c then skip_ws s' else s
  | [] => []
  end.

Definition is_digit (c : N) : bool := (ch "0" <=? c) && (c <=? ch "9").

Definition digit_val (c : N) : N := c - ch "0".

Definition hex_val (c : N) : option N :=
  if is_digit c then Some (c - ch "0")
  else if (ch "a" <=? c) && (c <=? ch "f") then Some (c - ch "a" + 10)
  else if (ch "A" <=? c) && (c <=? ch "F") then Some (c - ch "A" + 10)
  else None.

(** [_decode_uXXXX]: four hexadecimal digits. *)
Definition hex4 (a b c d : N) : option N :=
  match hex_val a, hex_val b, hex_val c, hex_val d with
  | Some x, Some y, Some z, Some w => Some (((x * 16 + y) * 16 + z) * 16 + w)
  | _, _, _, _ => None
  end.

(** [BACKSLASH]: the one-character escapes. *)
Definition backslash (c : N) : option N :=
  if c =? quote then Some (quote)
  else if c =? ch "\" then Some (ch "\")
  else if c =? ch "/" then Some (ch "/")
  else if c =? ch "b" then Some 8
  else if c =? ch "f" then Some 12
  else if c =? ch "n" then Some 10
  else if c =? ch "r" then Some 13
  else if c =? ch "t" then Some 9
  else None.

Definition is_high_surrogate (c : N) : bool := (55296 <=? c) && (c <=? 56319).
Definition is_low_surrogate (c : N) : bool := (56320 <=? c) && (c <=? 57343).

Definition join_surrogates (hi lo : N) : N :=
  65536 + N.lor (N.shiftl (hi - 55296) 10) (lo - 56320).

(** [py_scanstring] with [strict=True]; the input starts just after the
    opening quote, [acc] holds the characters read so far, reversed. *)
Fixpoint scanstring (s : pystr) (acc : pystr) : scan pystr :=
  match s with
  | [] => SErr "Unterminated string starting at"
  | c :: s1 =>
      if c =? quote then SOk (rev acc) s1
      else if c =? ch "\" then
        match s1 with
        | [] => SErr "Unterminated string starting at"
        | e :: s2 =>
            if e =? ch "u" then
              match s2 with
              | h1 :: h2 :: h3 :: h4 :: s3 =>
                  match hex4 h1 h2 h3 h4 with
                  | None => SErr "Invalid unicode escape"
                  | Some uni =>
                      match s3 with
                      | b :: v :: g1 :: g2 :: g3 :: g4 :: s4 =>
                          if is_high_surrogate uni && (b =? ch "\")
                             && (v =? ch "u") then
                            match hex4 g1 g2 g3 g4 with
                            | None => SErr "Invalid unicode escape"
                            | Some uni2 =>
                                if is_low_surrogate uni2
                                then scanstring s4
                                       (join_surrogates uni uni2 :: acc)
                                else scanstring s3 (uni :: acc)
                            end
                          else scanstring s3 (uni :: acc)
                      | _ =>
                          match s3 with
                          | b :: v :: _ =>
                              if is_high_surrogate uni && (b =? ch "\")
                                 && (v =? ch "u")
                              then SErr "Invalid unicode escape"
                              else scanstring s3 (uni :: acc)
                          | _ => scanstring s3 (uni :: acc)
                          end
                      end
                  end
              | _ => SErr "Invalid unicode escape"
              end
            else
              match backslash e with
              | Some c' => scanstring s2 (c' :: acc)
              | None => SErr "Invalid escape"
              end
        end
      else if c <? 32 then SErr "Invalid control character at"
      else scanstring s1 (c :: acc)
  end.

(** *** Numbers: [NUMBER_RE] *)

Fixpoint take_digits (s : pystr) : pystr * pystr :=
  match s with
  | c :: s' =>
      if is_digit c
      then let '(ds, r) := take_digits s' in (c :: ds, r)
      else ([], s)
  | [] => ([], [])
  end.

Definition digits_val (ds : pystr) : N :=
  fold_left (fun a d => a * 10 + digit_val d) ds 0.

(** The integer part: [0|[1-9][0-9]*]. *)
Definition int_part (s : pystr) : option (pystr * pystr) :=
  match s with
  | c :: s' =>
      if c =? ch "0" then Some ([c], s')
      else if is_digit c
           then let '(ds, r) := take_digits s' in Some (c :: ds, r)
           else None
  | [] => None
  end.

(** The fraction: a dot and at least one digit, or nothing. *)
Definition frac_part (s : pystr) : option pystr * pystr :=
  match s with
  | c :: s' =>
      if c =? ch "." then
        match take_digits s' with
        | ([], _) => (None, s)
        | (ds, r) => (Some ds, r)
        end
      else (None, s)
  | [] => (None, s)
  end.

(** The exponent: [eE], an optional sign, at least one digit, or nothing. *)
Definition exp_part (s : pystr) : option Z * pystr :=
  match s with
  | c :: s' =>
      if (c =? ch "e") || (c =? ch "E") then
        let '(neg, s'') :=
          match s' with
          | g :: t => if g =? ch "-" then (true, t)
                      else if g =? ch "+" then (false, t)
                      else (false, s')
          | [] => (false, s')
          end in
        match take_digits s'' with
        | ([], _) => (None, s)
        | (ds, r) =>
            let v := Z.of_N (digits_val ds) in
            (Some (if neg then (- v)%Z else v), r)
        end
      else (None, s)
  | [] => (None, s)
  end.

Definition match_number (s : pystr) : option (pyval * pystr) :=
  let '(neg, s1) :=
    match s with
    | c :: t => if c =? ch "-" then (true, t) else (false, s)
    | [] => (false, s)
    end in
  match int_part s1 with
  | None => None
  | Some (ids, r1) =>
      let '(frac, r2) := frac_part r1 in
      let '(ex, r3) := exp_part r2 in
      match frac, ex with
      | None, None =>
          let v := Z.of_N (digits_val ids) in
          Some (PInt (if neg then (- v)%Z else v), r3)
      | _, _ =>
          let fds := match frac with Some ds => ds | None => [] end in
          let e := match ex with Some e => e | None => 0%Z end in
          Some (PFloat (FFin neg (digits_val (ids ++ fds)%list)
                          (e - Z.of_nat (List.length fds))%Z), r3)
      end
  end.

(** [s[idx:idx+n] == p]: the input after the prefix [p], if it starts
    with it. *)
Fixpoint starts_with (p s : pystr) : option pystr :=
  match p, s with
  | [], _ => Some s
  | a :: p', b :: s' => if a =? b then starts_with p' s' else None
  | _ :: _, [] => None
  end.

(** The scanner's cases after string, object and array. *)
Definition scan_atom (s : pystr) : scan pyval :=
  match starts_with (u "null") s with
  | Some r => SOk PNone r
  | None =>
  match starts_with (u "true") s with
  | Some r => SOk (PBool true) r
  | None =>
  match starts_with (u "false") s with
  | Some r => SOk (PBool false) r
  | None =>
  match match_number s with
  | Some (v, r) => SOk v r
  | None =>
  match starts_with (u "NaN") s with
  | Some r => SOk (PFloat FNaN) r
  | None =>
  match starts_with (u "Infinity") s with
  | Some r => SOk (PFloat (FInf false)) r
  | None =>
  match starts_with (u "-Infinity") s with
  | Some r => SOk (PFloat (FInf true)) r
  | None => SErr "Expecting value"
  end end end end end end end.

(** *** Values: [scan_once], [JSONObject], [JSONArray]

    The three functions call each other; [fuel] bounds the depth of the
    calls and is chosen by [decode] large enough never to run out
    ([scan_once_fuel] below). *)

Fixpoint scan_once (fuel : nat) (s : pystr) : scan pyval :=
  match fuel with
  | O => SFuel
  | S f =>
      match s with
      | [] => SErr "Expecting value"
      | c :: s1 =>
          if c =? quote then
            match scanstring s1 [] with
            | SOk k r => SOk (PStr k) r
            | SErr m => SErr m
            | SFuel => SFuel
            end
          else if c =? ch "{" then
            match skip_ws s1 with
            | d :: s2 =>
                if d =? ch "}" then SOk (PDict []) s2
                else if d =? quote then object_items f s2 []
                else SErr "Expecting property name enclosed in double quotes"
            | [] => SErr "Expecting property name enclosed in double quotes"
            end
          else if c =? ch "[" then
            match skip_ws s1 with
            | d :: s2 =>
                if d =? ch "]" then SOk (PList []) s2
                else array_items f (d :: s2) []
            | [] => SErr "Expecting value"
            end
          else scan_atom s
      end
  end

(** The loop of [JSONObject]; the input starts just after the opening
    quote of a key, [pairs] holds the pairs read so far, reversed. *)
with object_items (fuel : nat) (s : pystr) (pairs : list (pystr * pyval))
  : scan pyval :=
  match fuel with
  | O => SFuel
  | S f =>
      match scanstring s [] with
      | SFuel => SFuel
      | SErr m => SErr m
      | SOk key r =>
          match skip_ws r with
          | c :: r1 =>
              if c =? ch ":" then
                match scan_once f (skip_ws r1) with
                | SFuel => SFuel
                | SErr m => SErr m
                | SOk v r2 =>
                    match skip_ws r2 with
                    | d :: r3 =>
                        if d =? ch "}" then
                          SOk (PDict (Dict.of_pairs (rev ((key, v) :: pairs)))) r3
                        else if d =? ch "," then
                          match skip_ws r3 with
                          | q :: r4 =>
                              if q =? quote
                              then object_items f r4 ((key, v) :: pairs)
                              else SErr "Expecting property name enclosed in double quotes"
                          | [] => SErr "Expecting property name enclosed in double quotes"
                          end
                        else SErr "Expecting ',' delimiter"
                    | [] => SErr "Expecting ',' delimiter"
                    end
                end
              else SErr "Expecting ':' delimiter"
          | [] => SErr "Expecting ':' delimiter"
          end
      end
  end

(** The loop of [JSONArray]; the input starts at an element, [acc] holds
    the elements read so far, reversed. *)
with array_items (fuel : nat) (s : pystr) (acc : list pyval) : scan pyval :=
  match fuel with
  | O => SFuel
  | S f =>
      match scan_once f s with
      | SFuel => SFuel
      | SErr m => SErr m
      | SOk v r =>
          match skip_ws r with
          | d :: r1 =>
              if d =? ch "]" then SOk (PList (rev (v :: acc))) r1
              else if d =? ch "," then array_items f (skip_ws r1) (v :: acc)
              else SErr "Expecting ',' delimiter"
          | [] => SErr "Expecting ',' delimiter"
          end
      end
  end.

(** [JSONDecoder.decode]: one value, white space around it, nothing
    else. *)
Definition decode (s : pystr) : pyresult pyval :=
  match scan_once (2 * List.length s + 2) (skip_ws s) with
  | SOk v r =>
      match skip_ws r with
      | [] => Ok v
      | _ :: _ => Raise (JSONDecodeError "Extra data")
      end
  | SErr m => Raise (JSONDecodeError m)
  | SFuel => Raise (OtherException "RecursionError")
  end.

(** [json.loads(value)]: a [str] is decoded (a leading byte order mark is
    refused), anything else that is not bytes raises [TypeError]. *)
Definition loads (value : pyval) : pyresult pyval :=
  match value with
  | PStr s =>
      match s with
      | 65279 :: _ => Raise (JSONDecodeError "Unexpected UTF-8 BOM (decode using utf-8-sig)")
      | _ => decode s
      end
  | _ => Raise TypeError
  end.

End Json.

(** ** The field extractor *)

(** [json_data.get("total_balance")]: only a [dict] has the method, on any
    other value the attribute lookup raises [AttributeError]. *)
Definition py_get (json_data : pyval) (key : pystr) : pyresult pyval :=
  match json_data with
  | PDict d => Ok (Dict.get key d)
  | _ => Raise AttributeError
  end.

(** [parse_json_column]: decode, look the field up, and turn the three
    listed exception classes into [None]; any other exception passes. *)
Definition parse_json_column (value : pyval) : pyresult pyval :=
  let body :=
    match Json.loads value with
    | Ok json_data => py_get json_data (u "total_balance")
    | Raise e => Raise e
    end in
  match body with
  | Ok v => Ok v
  | Raise (JSONDecodeError _) => Ok PNone
  | Raise TypeError => Ok PNone
  | Raise AttributeError => Ok PNone
  | Raise e => Raise e
  end.

(** ** Tables *)

(** A cell that holds no value: [NaN], [None] or [NaT]. *)
Definition isna (v : pyval) : bool :=
  match v with
  | PNone => true
  | PFloat FNaN => true
  | PTimestamp None => true
  | _ => false
  end.

(** A [DataFrame]: the row labels and the named columns, each column as
    long as the index. *)
Record frame : Type := {
  frame_index : list pyval;
  frame_columns : list (pystr * list pyval)
}.

Module Frame.

Definition nrows (f : frame) : nat := List.length (frame_index f).
Definition ncols (f : frame) : nat := List.length (frame_columns f).

(** [df.columns] *)
Definition columns (f : frame) : list pystr := map fst (frame_columns f).

(** [name in df.columns] *)
Definition has (name : pystr) (f : frame) : bool :=
  existsb (pystr_eqb name) (columns f).

Fixpoint assoc (name : pystr) (cols : list (pystr * list pyval))
  : option (list pyval) :=
  match cols with
  | [] => None
  | (n, c) :: cols' => if pystr_eqb name n then Some c else assoc name cols'
  end.

(** [df[name]], on a column that the caller has checked to be there. *)
Definition col (name : pystr) (f : frame) : list pyval :=
  match assoc name (frame_columns f) with
  | Some c => c
  | None => []
  end.

Fixpoint assign (name : pystr) (c : list pyval)
         (cols : list (pystr * list pyval)) : list (pystr * list pyval) :=
  match cols with
  | [] => [(name, c)]
  | (n, c') :: cols' =>
      if pystr_eqb name n then (n, c) :: cols'
      else (n, c') :: assign name c cols'
  end.

(** [df[name] = c]: an existing column is replaced where it stands, a new
    one is added last. *)
Definition set_col (name : pystr) (c : list pyval) (f : frame) : frame :=
  {| frame_index := frame_index f;
     frame_columns := assign name c (frame_columns f) |}.

(** [df[[n1; ...]]] *)
Definition select (names : list pystr) (f : frame) : frame :=
  {| frame_index := frame_index f;
     frame_columns := map (fun n => (n, col n f)) names |}.

(** [df.head(k)] *)
Definition head (k : nat) (f : frame) : frame :=
  {| frame_index := firstn k (frame_index f);
     frame_columns := map (fun nc => (fst nc, firstn k (snd nc)))
                          (frame_columns f) |}.

(** [df.take(positions)]: the rows at the given positions, in that order. *)
Definition take (positions : list nat) (f : frame) : frame :=
  let pick (c : list pyval) := map (fun i => nth i c PNone) positions in
  {| frame_index := pick (frame_index f);
     frame_columns := map (fun nc => (fst nc, pick (snd nc)))
                          (frame_columns f) |}.

(** Removing a column from a table (used to state what a panel depends
    on; the script itself never drops a column). *)
Definition drop (name : pystr) (f : frame) : frame :=
  {| frame_index := frame_index f;
     frame_columns := filter (fun nc => negb (pystr_eqb name (fst nc)))
                             (frame_columns f) |}.

End Frame.

(** ** The page *)

(** What a call of the plotting library draws, by the data it is given. *)
Inductive figure : Type :=
| Histplot (data : list pyval)
| Boxplot (x y : list pyval)
| Barplot (counts : list (pyval * nat))
| Scatterplot (x y : list pyval).

(** An argument of [st.write]. *)
Inductive shown : Type :=
| ShowText (s : string)
| ShowShape (rows cols : nat)
| ShowDescribe (f : frame)
| ShowValues (l : list pyval)
| ShowCounts (l : list (pyval * nat)).

(** One element of the rendered page, in the order of the calls. *)
Inductive element : Type :=
| StTitle (s : string)
| StWrite (args : list shown)
| StSubheader (s : string)
| StDataframe (f : frame)
| StInfoText (f : frame)
| StWarning (s : string)
| StError (s : string)
| StPyplot (fig : figure)
| StLineChart (data : list (Z * pyval)).


(** The elements that show data of the table: everything but the title,
    the introduction, the section headings and the messages. *)
Definition is_rendering (e : element) : bool :=
  match e with
  | StDataframe _ | StInfoText _ | StPyplot _ | StLineChart _ => true
  | StWrite args =>
      existsb (fun a => match a with ShowText _ => false | _ => true end) args
  | _ => false
  end.

(** ** The file and [pd.read_csv] *)

(** What the csv reader makes of a file: an error of the reader, or the
    records with their fields. *)
Inductive csv_source : Type :=
| CsvError (msg : string)
| CsvRecords (records : list (list pystr)).

Definition filesystem := string -> option csv_source.

Definition csv_path : string := "Data PM - case (1).csv".

Module Csv.

Definition is_space (c : N) : bool :=
  ((9 <=? c) && (c <=? 13) || (28 <=? c) && (c <=? 32))%N.

(** [_remove_empty_lines]: a record without fields, or with one field of
    white space only, is dropped. *)
Definition is_blank (r : list pystr) : bool :=
  match r with
  | [] => true
  | [s] => forallb is_space s
  | _ => false
  end.

(** The expected width: the header's, extended by the leading index
    fields when the first data record is longer than the header. *)
Definition col_len (header : list pystr) (data : list (list pystr)) : nat :=
  match data with
  | first :: _ => Nat.max (List.length header) (List.length first)
  | [] => List.length header
  end.

(** A bad line has too many fields; [on_bad_lines='skip'] drops it. *)
Definition is_bad (width : nat) (r : list pystr) : bool :=
  Nat.ltb width (List.length r).

Definition skip_bad (width : nat) (data : list (list pystr))
  : list (list pystr) :=
  filter (fun r => negb (is_bad width r)) data.

(** A record with too few fields is kept, its missing fields empty. *)
Definition pad (width : nat) (r : list pystr) : list (option pystr) :=
  (map Some r ++ repeat None (width - List.length r))%list.

Definition label (fields : list (option pystr)) : pyval :=
  PList (map (fun x => match x with
                       | Some s => PStr s
                       | None => PFloat FNaN
                       end) fields).

Definition range_index (n : nat) : list pyval :=
  map (fun i => PInt (Z.of_nat i)) (seq 0 n).

Definition transpose (width : nat) (rows : list (list (option pystr)))
  : list (list (option pystr)) :=
  map (fun j => map (fun r => nth j r None) rows) (seq 0 width).

End Csv.

(** ** Operations of the table library used by the panels *)

Module Pandas.

Definition float_eqb (a b : pyfloat) : bool :=
  match a, b with
  | FNaN, FNaN => true
  | FInf x, FInf y => Bool.eqb x y
  | FFin x m e, FFin y n g => Bool.eqb x y && N.eqb m n && Z.eqb e g
  | _, _ => false
  end.

(** Sameness of two cells as [unique] and [value_counts] group them. *)
Fixpoint val_eqb (a b : pyval) {struct a} : bool :=
  match a, b with
  | PNone, PNone => true
  | PBool x, PBool y => Bool.eqb x y
  | PInt x, PInt y => Z.eqb x y
  | PFloat x, PFloat y => float_eqb x y
  | PStr x, PStr y => pystr_eqb x y
  | PList x, PList y =>
      (fix go (l m : list pyval) {struct l} : bool :=
         match l, m with
         | [], [] => true
         | v :: l', w :: m' => val_eqb v w && go l' m'
         | _, _ => false
         end) x y
  | PDict x, PDict y =>
      (fix go (l m : list (pystr * pyval)) {struct l} : bool :=
         match l, m with
         | [], [] => true
         | (k, v) :: l', (j, w) :: m' =>
             pystr_eqb k j && val_eqb v w && go l' m'
         | _, _ => false
         end) x y
  | PTimestamp (Some x), PTimestamp (Some y) => Z.eqb x y
  | PTimestamp None, PTimestamp None => true
  | _, _ => false
  end.

(** [Series.dropna()] *)
Definition dropna (c : list pyval) : list pyval :=
  filter (fun v => negb (isna v)) c.

(** [Series.unique()]: the distinct values in order of appearance. *)
Fixpoint unique_from (seen : list pyval) (c : list pyval) : list pyval :=
  match c with
  | [] => []
  | v :: c' =>
      if existsb (val_eqb v) seen then unique_from seen c'
      else v :: unique_from (v :: seen) c'
  end.

Definition unique (c : list pyval) : list pyval := unique_from [] c.

Fixpoint bump (v : pyval) (counts : list (pyval * nat))
  : list (pyval * nat) :=
  match counts with
  | [] => [(v, 1)]
  | (w, n) :: counts' =>
      if val_eqb v w then (w, S n) :: counts' else (w, n) :: bump v counts'
  end.

Fixpoint insert_by_count (x : pyval * nat) (l : list (pyval * nat))
  : list (pyval * nat) :=
  match l with
  | [] => [x]
  | y :: l' =>
      if Nat.ltb (snd x) (snd y) then y :: insert_by_count x l'
      else x :: y :: l'
  end.

(** [Series.value_counts()]: missing values are left out, the most
    frequent value comes first, equal counts keep the order of first
    appearance. *)
Definition value_counts (c : list pyval) : list (pyval * nat) :=
  let counts := fold_left (fun acc v => bump v acc) (dropna c) [] in
  fold_right insert_by_count [] counts.

End Pandas.

Module Resample.

Local Open Scope Z_scope.

(** *** [sort_values] *)

Definition ts_key (v : pyval) : option Z :=
  match v with
  | PTimestamp t => t
  | _ => None
  end.

(** [a] sorts strictly before [b]; a missing key sorts last. *)
Definition key_lt (a b : option Z) : bool :=
  match a, b with
  | Some x, Some y => Z.ltb x y
  | Some _, None => true
  | None, _ => false
  end.

Fixpoint insert_pos (x : nat * option Z) (l : list (nat * option Z))
  : list (nat * option Z) :=
  match l with
  | [] => [x]
  | y :: l' =>
      if key_lt (snd y) (snd x) then y :: insert_pos x l'
      else x :: y :: l'
  end.

(** The positions of the rows in ascending order of their keys; rows
    with equal keys keep their order. *)
Definition argsort (keys : list (option Z)) : list nat :=
  map fst (fold_right insert_pos []
             (combine (seq 0 (List.length keys)) keys)).

(** [df.sort_values(name, inplace=True)] on a timestamp column. *)
Definition sort_values (name : pystr) (f : frame) : frame :=
  Frame.take (argsort (map ts_key (Frame.col name f))) f.

(** *** [df[[t; a]].dropna()], as the list of its rows *)

Definition complete_rows (t a : pystr) (f : frame) : list (pyval * pyval) :=
  filter (fun r => negb (isna (fst r)) && negb (isna (snd r)))
         (combine (Frame.col t f) (Frame.col a f)).

(** *** Daily sums *)

Definition ns_per_day : Z := 86400000000000.

(** The calendar day of a timestamp, as days since the epoch. *)
Definition day_of (t : Z) : Z := t / ns_per_day.

(** A 64-bit sum wraps around. *)
Definition wrap64 (z : Z) : Z :=
  (z + 2 ^ 63) mod 2 ^ 64 - 2 ^ 63.

Definition signed (neg : bool) (m : N) : Z :=
  if neg then - Z.of_N m else Z.of_N m.

(** The sum of two floats, on the decimals: exact, the rounding of the
    binary format is left out. *)
Definition float_add (a b : pyfloat) : pyfloat :=
  match a, b with
  | FNaN, _ | _, FNaN => FNaN
  | FInf x, FInf y => if Bool.eqb x y then FInf x else FNaN
  | FInf x, FFin _ _ _ => FInf x
  | FFin _ _ _, FInf y => FInf y
  | FFin x m e, FFin y n g =>
      let lo := Z.min e g in
      let s := signed x m * 10 ^ (e - lo) + signed y n * 10 ^ (g - lo) in
      FFin (Z.ltb s 0) (Z.abs_N s) lo
  end.

Definition as_number (v : pyval) : option (Z + pyfloat) :=
  match v with
  | PInt z => Some (inl z)
  | PBool b => Some (inl (if b then 1 else 0))
  | PFloat x => Some (inr x)
  | _ => None
  end.

Definition float_of_int (z : Z) : pyfloat := FFin (Z.ltb z 0) (Z.abs_N z) 0.

(** One step of the column sum; an amount that is not a number makes the
    aggregation raise. *)
Definition add (acc : pyval) (v : pyval) : pyresult pyval :=
  match as_number acc, as_number v with
  | Some (inl x), Some (inl y) => Ok (PInt (wrap64 (x + y)))
  | Some (inl x), Some (inr y) => Ok (PFloat (float_add (float_of_int x) y))
  | Some (inr x), Some (inl y) => Ok (PFloat (float_add x (float_of_int y)))
  | Some (inr x), Some (inr y) => Ok (PFloat (float_add x y))
  | _, _ => Raise TypeError
  end.

Fixpoint sum_from (acc : pyval) (l : list pyval) : pyresult pyval :=
  match l with
  | [] => Ok acc
  | v :: l' =>
      match add acc v with
      | Ok acc' => sum_from acc' l'
      | Raise e => Raise e
      end
  end.

Definition is_float (v : pyval) : bool :=
  match v with
  | PFloat _ => true
  | _ => false
  end.

(** The sum of an empty bucket, by the type of the column. *)
Definition zero_of (amounts : list pyval) : pyval :=
  if existsb is_float amounts then PFloat (FFin false 0 0) else PInt 0.

Definition stamp (v : pyval) : Z :=
  match ts_key v with
  | Some t => t
  | None => 0
  end.

(** The days from the first to the last day that has a row. *)
Definition day_range (days : list Z) : list Z :=
  match days with
  | [] => []
  | d :: ds =>
      let lo := fold_left Z.min ds d in
      let hi := fold_left Z.max ds d in
      map (fun i => lo + Z.of_nat i) (seq 0 (Z.to_nat (hi - lo + 1)))
  end.

Fixpoint buckets (zero : pyval) (rows : list (pyval * pyval))
         (days : list Z) : pyresult (list (Z * pyval)) :=
  match days with
  | [] => Ok []
  | d :: days' =>
      let amounts :=
        map snd (filter (fun r => Z.eqb (day_of (stamp (fst r))) d) rows) in
      match sum_from zero amounts with
      | Raise e => Raise e
      | Ok s =>
          match buckets zero rows days' with
          | Raise e => Raise e
          | Ok rest => Ok ((d * ns_per_day, s) :: rest)
          end
      end
  end.

(** [ts_df.set_index(t).resample('D').sum()]: one bucket per calendar
    day, labelled by the start of the day, holding the sum of the
    day's amounts. *)
Definition resample_daily_sum (rows : list (pyval * pyval))
  : pyresult (list (Z * pyval)) :=
  buckets (zero_of (map snd rows)) rows
          (day_range (map (fun r => day_of (stamp (fst r))) rows)).

End Resample.

(** ** The script as state-passing code

    The state of a run is the module-level variable [df] ([None] until the
    table is loaded) and the elements put on the page so far.  A
    computation returns a value or raises; the state reached is kept in
    both cases. *)

Record world : Type := {
  df : option frame;
  page : list element
}.

Definition M (A : Type) : Type := world -> pyresult A * world.

Definition ret {A : Type} (a : A) : M A := fun w => (Ok a, w).

Definition bind {A B : Type} (c : M A) (k : A -> M B) : M B :=
  fun w =>
    match c w with
    | (Ok a, w') => k a w'
    | (Raise e, w') => (Raise e, w')
    end.

Definition raise {A : Type} (e : exn) : M A := fun w => (Raise e, w).

Definition lift {A : Type} (r : pyresult A) : M A := fun w => (r, w).

(** [try: c  except <classes accepted by handles>: h]. *)
Definition try_except {A : Type} (c : M A) (handles : exn -> bool)
           (h : exn -> M A) : M A :=
  fun w =>
    match c w with
    | (Ok a, w') => (Ok a, w')
    | (Raise e, w') => if handles e then h e w' else (Raise e, w')
    end.

Declare Scope script_scope.
Delimit Scope script_scope with script.
Notation "x <- c ;; k" := (bind c (fun x => k))
  (at level 61, c at next level, right associativity) : script_scope.
Notation "c ;; k" := (bind c (fun _ => k))
  (at level 61, right associativity) : script_scope.
Open Scope script_scope.

(** Putting an element on the page. *)
Definition emit (e : element) : M unit :=
  fun w => (Ok tt, {| df := df w; page := (page w ++ [e])%list |}).

(** Reading the table through the variable [df]; on [None] the attribute
    access raises. *)
Definition the_df : M frame :=
  fun w =>
    match df w with
    | Some f => (Ok f, w)
    | None => (Raise AttributeError, w)
    end.

(** In-place change of the table. *)
Definition update_df (g : frame -> frame) : M unit :=
  fun w =>
    match df w with
    | Some f => (Ok tt, {| df := Some (g f); page := page w |})
    | None => (Raise AttributeError, w)
    end.

(** Binding the variable [df]. *)
Definition assign_df (v : option frame) : M unit :=
  fun w => (Ok tt, {| df := v; page := page w |}).

(** [Series.apply(fn)]: element by element, the first exception ends it. *)
Fixpoint apply (fn : pyval -> pyresult pyval) (c : list pyval)
  : pyresult (list pyval) :=
  match c with
  | [] => Ok []
  | v :: c' =>
      match fn v with
      | Raise e => Raise e
      | Ok x =>
          match apply fn c' with
          | Raise e => Raise e
          | Ok xs => Ok (x :: xs)
          end
      end
  end.

(** The column names the script looks for. *)
Definition CURRENCY_CODE : pystr := u "CURRENCY_CODE".
Definition POST_TRANSACTION_ACCOUNT_BALANCES : pystr :=
  u "POST_TRANSACTION_ACCOUNT_BALANCES".
Definition total_balance : pystr := u "total_balance".
Definition TRANSACTION_AMOUNT : pystr := u "TRANSACTION_AMOUNT".
Definition MCC : pystr := u "MCC".
Definition TIMESTAMP : pystr := u "TIMESTAMP".

Section Script.

(** What the reader does with a header and the columns of fields below
    it: naming the columns and converting the fields of each to cells. *)
Variable infer_columns :
  list pystr -> list (list (option pystr)) -> list (pystr * list pyval).

(** [pd.to_datetime] on a column: the parsed timestamps, or an
    exception. *)
Variable to_datetime : list pyval -> pyresult (list (option Z)).

(** *** [pd.read_csv(..., on_bad_lines='skip', engine='python')] *)

Definition read_records (records : list (list pystr)) : pyresult frame :=
  match filter (fun r => negb (Csv.is_blank r)) records with
  | [] => Raise EmptyDataError
  | header :: data =>
      let width := Csv.col_len header data in
      let k := width - List.length header in
      let rows := map (Csv.pad width) (Csv.skip_bad width data) in
      Ok {| frame_index :=
              if Nat.eqb k 0 then Csv.range_index (List.length rows)
              else map (fun r => Csv.label (firstn k r)) rows;
            frame_columns :=
              infer_columns header
                (Csv.transpose (List.length header) (map (skipn k) rows)) |}
  end.

Definition read_csv (fs : filesystem) (path : string) : pyresult frame :=
  match fs path with
  | None => Raise FileNotFoundError
  | Some (CsvError msg) => Raise (ParserError msg)
  | Some (CsvRecords records) => read_records records
  end.

(** *** [load_data] *)

Definition load_data (fs : filesystem) : M (option frame) :=
  try_except
    (f <- lift (read_csv fs csv_path) ;; ret (Some f))
    (fun e => match e with
              | FileNotFoundError | ParserError _ => true
              | _ => false
              end)
    (fun e => match e with
              | FileNotFoundError =>
                  emit (StError "CSV file not found.") ;; ret None
              | ParserError msg =>
                  emit (StError ("ParserError: " ++ msg)) ;; ret None
              | _ => raise e
              end).

(** *** Data preview and summary *)

Definition presenter : M unit :=
  emit (StSubheader "Data Preview") ;;
  f <- the_df ;;
  emit (StDataframe (Frame.head 5 f)) ;;
  f <- the_df ;;
  emit (StWrite [ShowText "**Shape of the DataFrame:**";
                 ShowShape (Frame.nrows f) (Frame.ncols f)]) ;;
  emit (StSubheader "DataFrame Info") ;;
  f <- the_df ;;
  emit (StInfoText f) ;;
  emit (StSubheader "Descriptive Statistics (Numerical Columns)") ;;
  f <- the_df ;;
  emit (StWrite [ShowDescribe f]) ;;
  f <- the_df ;;
  if Frame.has CURRENCY_CODE f then
    emit (StSubheader "Unique Values and Frequency in 'CURRENCY_CODE'") ;;
    f <- the_df ;;
    emit (StWrite [ShowText "Unique values:";
                   ShowValues (Pandas.unique (Frame.col CURRENCY_CODE f))]) ;;
    emit (StWrite [ShowText "Value counts:"]) ;;
    f <- the_df ;;
    emit (StWrite [ShowCounts
                     (Pandas.value_counts (Frame.col CURRENCY_CODE f))])
  else
    emit (StWarning "Column 'CURRENCY_CODE' not found.").

(** *** The derived column *)

Definition extract : M unit :=
  f <- the_df ;;
  if Frame.has POST_TRANSACTION_ACCOUNT_BALANCES f then
    emit (StSubheader
            "Parsing 'POST_TRANSACTION_ACCOUNT_BALANCES' to Extract total_balance") ;;
    f <- the_df ;;
    vals <- lift (apply parse_json_column
                    (Frame.col POST_TRANSACTION_ACCOUNT_BALANCES f)) ;;
    update_df (Frame.set_col total_balance vals) ;;
    f <- the_df ;;
    emit (StDataframe
            (Frame.head 5
               (Frame.select
                  [POST_TRANSACTION_ACCOUNT_BALANCES; total_balance] f)))
  else
    emit (StWarning "Column 'POST_TRANSACTION_ACCOUNT_BALANCES' not found.").

(** *** The five chart panels *)

Definition panel1 : M unit :=
  emit (StSubheader "1. Distribution of Transaction Amounts") ;;
  f <- the_df ;;
  if Frame.has TRANSACTION_AMOUNT f then
    f <- the_df ;;
    emit (StPyplot
            (Histplot (Pandas.dropna (Frame.col TRANSACTION_AMOUNT f))))
  else
    emit (StWarning
            "Column 'TRANSACTION_AMOUNT' not found. Cannot display Distribution of Transaction Amounts.").

Definition panel2 : M unit :=
  emit (StSubheader "2. Box Plot of Transaction Amounts by Currency") ;;
  f <- the_df ;;
  if Frame.has TRANSACTION_AMOUNT f && Frame.has CURRENCY_CODE f then
    f <- the_df ;;
    emit (StPyplot (Boxplot (Frame.col CURRENCY_CODE f)
                            (Frame.col TRANSACTION_AMOUNT f)))
  else
    emit (StWarning
            "Columns 'TRANSACTION_AMOUNT' and/or 'CURRENCY_CODE' not found. Cannot display Box Plot of Transaction Amounts by Currency.").

Definition panel3 : M unit :=
  emit (StSubheader "3. Top 10 Merchant Category Codes (MCC)") ;;
  f <- the_df ;;
  if Frame.has MCC f then
    f <- the_df ;;
    let top_mcc := firstn 10 (Pandas.value_counts (Frame.col MCC f)) in
    emit (StPyplot (Barplot top_mcc))
  else
    emit (StWarning
            "Column 'MCC' not found. Cannot display Top 10 MCC visualization.").

Definition panel4 : M unit :=
  emit (StSubheader "4. Scatter Plot: Transaction Amount vs. Total Balance") ;;
  f <- the_df ;;
  if Frame.has TRANSACTION_AMOUNT f && Frame.has total_balance f then
    f <- the_df ;;
    emit (StPyplot (Scatterplot (Frame.col TRANSACTION_AMOUNT f)
                                (Frame.col total_balance f)))
  else
    emit (StWarning
            "Columns 'TRANSACTION_AMOUNT' and/or 'total_balance' not found. Cannot display Scatter Plot.").

(** The body of the [try] of the time-series panel. *)
Definition time_series : M unit :=
  f <- the_df ;;
  ts <- lift (to_datetime (Frame.col TIMESTAMP f)) ;;
  update_df (Frame.set_col TIMESTAMP (map PTimestamp ts)) ;;
  update_df (Resample.sort_values TIMESTAMP) ;;
  f <- the_df ;;
  let ts_df := Resample.complete_rows TIMESTAMP TRANSACTION_AMOUNT f in
  daily <- lift (Resample.resample_daily_sum ts_df) ;;
  emit (StLineChart daily).

Definition panel5 : M unit :=
  emit (StSubheader "5. Time Series of Transaction Amounts") ;;
  f <- the_df ;;
  if Frame.has TRANSACTION_AMOUNT f && Frame.has TIMESTAMP f then
    try_except time_series is_Exception
      (fun e => emit (StError ("Error processing TIMESTAMP column: "
                               ++ exn_message e)))
  else
    emit (StWarning
            "Columns 'TRANSACTION_AMOUNT' and/or 'TIMESTAMP' not found. Cannot display Time Series of Transaction Amounts.").

(** *** The module-level code *)

Definition charts : M unit :=
  panel1 ;; panel2 ;; panel3 ;; panel4 ;; panel5.

Definition script (fs : filesystem) : M unit :=
  emit (StTitle "LOL Dataset Key Visualizations") ;;
  emit (StWrite [ShowText
    "This app displays key visualizations based on the LOL dataset using the same code used in the original notebook."]) ;;
  loaded <- load_data fs ;;
  assign_df loaded ;;
  match loaded with
  | Some _ => presenter ;; extract ;; charts
  | None =>
      emit (StError
              "No data loaded. Please ensure the CSV file exists and is formatted correctly.")
  end.

Definition start : world := {| df := None; page := [] |}.

(** One render of the page. *)
Definition render (fs : filesystem) : pyresult unit * world :=
  script fs start.

(** The page code after a successful load, on a given table. *)
Definition render_table (f : frame) : pyresult unit * world :=
  (presenter ;; extract ;; charts) {| df := Some f; page := [] |}.

End Script.

(** ** Notions used to state the properties *)

(** The chart panel an element belongs to, if it is a chart. *)
Definition chart_of (e : element) : option nat :=
  match e with
  | StPyplot (Histplot _) => Some 1
  | StPyplot (Boxplot _ _) => Some 2
  | StPyplot (Barplot _) => Some 3
  | StPyplot (Scatterplot _ _) => Some 4
  | StLineChart _ => Some 5
  | _ => None
  end.

Definition is_chart (k : nat) (e : element) : bool :=
  match chart_of e with
  | Some j => Nat.eqb j k
  | None => false
  end.

(** Panel [k] renders on a page when its chart is among the elements. *)
Definition renders (k : nat) (p : list element) : bool :=
  existsb (is_chart k) p.






(** The result of the extractor on a cell, as a value. *)
Definition extracted (v : pyval) : pyval :=
  match parse_json_column v with
  | Ok x => x
  | Raise _ => PNone
  end.

(** *** Instances of the two library functions, for concrete runs *)

(** Columns named by the header as it stands, fields kept as strings and
    missing fields as NaN. *)
Definition raw_columns (header : list pystr)
           (cols : list (list (option pystr))) : list (pystr * list pyval) :=
  combine header
    (map (map (fun x => match x with
                        | Some s => PStr s
                        | None => PFloat FNaN
                        end)) cols).

(** A [to_datetime] that reads integer cells as nanoseconds since the
    epoch and refuses strings. *)
Fixpoint epoch_to_datetime (c : list pyval) : pyresult (list (option Z)) :=
  match c with
  | [] => Ok []
  | v :: c' =>
      match epoch_to_datetime c' with
      | Raise e => Raise e
      | Ok ts =>
          match v with
          | PInt z => Ok (Some z :: ts)
          | PTimestamp t => Ok (t :: ts)
          | PNone | PFloat FNaN => Ok (None :: ts)
          | _ => Raise (OtherException "ValueError")
          end
      end
  end.

(** The JSON text of an object with the one key [total_balance]. *)
Definition balance_json (value : string) : pystr :=
  (u "{" ++ [Json.quote] ++ u "total_balance" ++ [Json.quote] ++ u ": "
     ++ u value ++ u "}")%list.

(** The two fixed parts of a page. *)
Definition no_data_loaded : element :=
  StError
    "No data loaded. Please ensure the CSV file exists and is formatted correctly.".

Definition page_head : list element :=
  [StTitle "LOL Dataset Key Visualizations";
   StWrite [ShowText
     "This app displays key visualizations based on the LOL dataset using the same code used in the original notebook."]].

(** [good b x s]: with budget condition [b] the step [x] on input [s] does
    not run out of fuel, and when it succeeds it has consumed input. *)
Definition good (b : Prop) (x : Json.scan pyval) (s : pystr) : Prop :=
  (b -> x <> Json.SFuel) /\
  (forall v r, x = Json.SOk v r -> List.length r < List.length s).

(** *** What the page code computes, step by step *)

(** The table after the extraction step. *)
Definition extract_frame (f : frame) : frame :=
  if Frame.has POST_TRANSACTION_ACCOUNT_BALANCES f
  then Frame.set_col total_balance
         (map extracted (Frame.col POST_TRANSACTION_ACCOUNT_BALANCES f)) f
  else f.

(** The table after the time-series panel has parsed and sorted it. *)
Definition sorted_frame (ts : list (option Z)) (f : frame) : frame :=
  Resample.sort_values TIMESTAMP
    (Frame.set_col TIMESTAMP (map PTimestamp ts) f).

(** The rows the time-series panel aggregates, from the parsed timestamps
    and the amounts. *)
Definition series_rows (ts : list (option Z)) (amounts : list pyval)
  : list (pyval * pyval) :=
  let positions := Resample.argsort (map Resample.ts_key (map PTimestamp ts)) in
  let pick (c : list pyval) := map (fun i => nth i c PNone) positions in
  filter (fun r => negb (isna (fst r)) && negb (isna (snd r)))
         (combine (pick (map PTimestamp ts)) (pick amounts)).

(** The outcome of the body of the time-series panel on a table. *)
Definition series_outcome
           (to_datetime : list pyval -> pyresult (list (option Z)))
           (f : frame) : pyresult (list (Z * pyval)) :=
  match to_datetime (Frame.col TIMESTAMP f) with
  | Raise e => Raise e
  | Ok ts =>
      Resample.resample_daily_sum
        (series_rows ts (Frame.col TRANSACTION_AMOUNT f))
  end.

(** Whether chart panel [k] draws its chart on table [f] (the table as it
    is after the extraction step). *)
Definition draws (to_datetime : list pyval -> pyresult (list (option Z)))
           (k : nat) (f : frame) : bool :=
  match k with
  | 1 => Frame.has TRANSACTION_AMOUNT f
  | 2 => Frame.has TRANSACTION_AMOUNT f && Frame.has CURRENCY_CODE f
  | 3 => Frame.has MCC f
  | 4 => Frame.has TRANSACTION_AMOUNT f && Frame.has total_balance f
  | 5 => Frame.has TRANSACTION_AMOUNT f && Frame.has TIMESTAMP f
         && match series_outcome to_datetime f with
            | Ok _ => true
            | Raise _ => false
            end
  | _ => false
  end.

(** *** Tables for concrete runs *)


(** A table of two rows with every column the script looks for. *)
Definition full_table : frame :=
  {| frame_index := [PInt 0; PInt 1];
     frame_columns :=
       [(TRANSACTION_AMOUNT, [PInt 10; PInt 5]);
        (CURRENCY_CODE, [PStr (u "USD"); PStr (u "EUR")]);
        (MCC, [PInt 5411; PInt 5411]);
        (TIMESTAMP, [PInt 1700000000000000000; PInt 1700000001000000000]);
        (POST_TRANSACTION_ACCOUNT_BALANCES,
         [PStr (balance_json "42.5"); PStr (u "not json")])] |}.

(** A file system without the data file, and one in which the reader
    fails on it. *)
Definition no_file : filesystem := fun _ => None.


(** The heading of the time-series panel and the message it reports an
    error with. *)
Definition time_series_heading : element :=
  StSubheader "5. Time Series of Transaction Amounts".

Definition time_series_error (e : exn) : element :=
  StError ("Error processing TIMESTAMP column: " ++ exn_message e).



(** A file with a header of two fields, a record of two fields and a
    record of one. *)
Definition short_record : list (list pystr) :=
  [[u "a"; u "b"]; [u "1"; u "2"]; [u "3"]].


Definition file_with (records : list (list pystr)) : filesystem :=
  fun _ => Some (CsvRecords records).

(** *** What a step puts on the page *)

(** The elements a step adds when it starts on an empty page with the
    variable [df] holding [d]. *)
Definition shown_by {A : Type} (c : M A) (d : option frame) : list element :=
  page (snd (c {| df := d; page := [] |})).

(** A step is local when it only adds to the page, what it adds and what
    it returns depending on [df] alone. *)
Definition local {A : Type} (c : M A) : Prop :=
  forall d p,
    c {| df := d; page := p |}
    = (fst (c {| df := d; page := [] |}),
       {| df := df (snd (c {| df := d; page := [] |}));
          page := p ++ shown_by c d |}).

(** The page carries the warning with the given text. *)
Definition warns (msg : string) (p : list element) : bool :=
  existsb (fun e => match e with
                    | StWarning s => String.eqb s msg
                    | _ => false
                    end) p.

(** An element that shows the distinct values or the counts of a column. *)
Definition shows_values (e : element) : bool :=
  match e with
  | StWrite args =>
      existsb (fun a => match a with
                        | ShowValues _ | ShowCounts _ => true
                        | _ => false
                        end) args
  | _ => false
  end.


(** The warning of each chart panel. *)
Definition panel_warning (k : nat) : string :=
  match k with
  | 1 => "Column 'TRANSACTION_AMOUNT' not found. Cannot display Distribution of Transaction Amounts."
  | 2 => "Columns 'TRANSACTION_AMOUNT' and/or 'CURRENCY_CODE' not found. Cannot display Box Plot of Transaction Amounts by Currency."
  | 3 => "Column 'MCC' not found. Cannot display Top 10 MCC visualization."
  | 4 => "Columns 'TRANSACTION_AMOUNT' and/or 'total_balance' not found. Cannot display Scatter Plot."
  | 5 => "Columns 'TRANSACTION_AMOUNT' and/or 'TIMESTAMP' not found. Cannot display Time Series of Transaction Amounts."
  | _ => EmptyString
  end.

(** The exceptions [load_data] has an [except] clause for. *)
Definition handled_by_load_data (e : exn) : bool :=
  match e with
  | FileNotFoundError | ParserError _ => true
  | _ => false
  end.

(** [a] does not sort after [b]. *)
Definition key_le (a b : option Z) : Prop := Resample.key_lt b a = false.


(** A file that holds nothing. *)
Definition empty_file : filesystem := fun _ => Some (CsvRecords []).

(** The order of two rows by their sort keys. *)
Definition pos_le (p q : nat * option Z) : Prop := key_le (snd p) (snd q).

(** *** Integer rows and their totals *)






(** * Properties *)

(** ** The decoder consumes its input and never exhausts its budget *)

Module JsonFacts.

Import Json.

Ltac case_if :=
match goal with
| |- context [if ?x then _ else _] => destruct x
end.

Lemma skip_ws_length (s : pystr) : List.length (skip_ws s) <= List.length s.
Proof.
induction s as [|c s IH]; simpl; [lia|].
destruct (is_ws c); simpl; lia.
Qed.

Lemma scanstring_spec (n : nat) :
forall s acc, List.length s <= n ->
  scanstring s acc <> SFuel /\
  (forall k r, scanstring s acc = SOk k r -> List.length r < List.length s).
Proof.
induction n as [|n IH]; intros s acc Hn.
- destruct s; [|simpl in Hn; lia]. simpl. split; [discriminate|intros; discriminate].
- assert (IH' : forall t a, List.length t < List.length s ->
             scanstring t a <> SFuel /\
             (forall k r, scanstring t a = SOk k r -> List.length r < List.length s)).
  { intros t a Ht. destruct (IH t a ltac:(lia)) as [H1 H2]. split; [exact H1|].
    intros k r E. specialize (H2 k r E). lia. }
  clear IH.
  destruct s as [|c s1]; simpl; [split; [discriminate|intros; discriminate]|].
  repeat match goal with
         | |- (if ?x then _ else _) <> _ /\ _ => destruct x
         | |- (match ?x with _ => _ end) <> _ /\ _ => destruct x
         end;
    try (split; [discriminate | intros ? ? E; discriminate E]);
    try (split; [discriminate | intros k r E; inversion E; subst; simpl; lia]);
    try (apply IH'; simpl; lia).
Qed.

Lemma take_digits_length (s : pystr) :
List.length (fst (take_digits s)) + List.length (snd (take_digits s))
= List.length s.
Proof.
induction s as [|c s IH]; simpl; [reflexivity|].
destruct (is_digit c); simpl; [|reflexivity].
destruct (take_digits s) as [ds r]; simpl in *. lia.
Qed.

Lemma starts_with_length (p : pystr) :
forall s r, starts_with p s = Some r ->
  List.length r + List.length p = List.length s.
Proof.
induction p as [|a p IH]; intros s r E; simpl in E.
- inversion E; subst. simpl. lia.
- destruct s as [|b s]; [discriminate|].
  destruct (N.eqb a b); [|discriminate].
  apply IH in E. simpl. lia.
Qed.

Lemma int_part_length (s ds r : pystr) :
int_part s = Some (ds, r) -> List.length r < List.length s.
Proof.
unfold int_part. destruct s as [|c s]; [discriminate|].
case_if.
- intros E; inversion E; subst. simpl. lia.
- destruct (is_digit c); [|discriminate].
  pose proof (take_digits_length s) as L.
  destruct (take_digits s) as [ds' r']. simpl in L.
  intros E; inversion E; subst. simpl. lia.
Qed.

Lemma frac_part_length (s : pystr) :
List.length (snd (frac_part s)) <= List.length s.
Proof.
unfold frac_part. destruct s as [|c s]; [simpl; lia|].
case_if; [|simpl; lia].
pose proof (take_digits_length s) as L.
destruct (take_digits s) as [[|d ds] r]; simpl in *; lia.
Qed.

Lemma exp_part_length (s : pystr) :
List.length (snd (exp_part s)) <= List.length s.
Proof.
unfold exp_part. destruct s as [|c s]; [simpl; lia|].
case_if; [|simpl; lia].
destruct s as [|g t].
- simpl. lia.
- case_if; [|case_if].
  + pose proof (take_digits_length t) as L.
    destruct (take_digits t) as [[|d ds] r]; simpl in *; lia.
  + pose proof (take_digits_length t) as L.
    destruct (take_digits t) as [[|d ds] r]; simpl in *; lia.
  + pose proof (take_digits_length (g :: t)) as L.
    destruct (take_digits (g :: t)) as [[|d ds] r]; simpl in *; lia.
Qed.

Lemma match_number_length (s : pystr) (v : pyval) (r : pystr) :
match_number s = Some (v, r) -> List.length r < List.length s.
Proof.
unfold match_number.
set (p := match s with
          | c :: t => if N.eqb c (ch "-") then (true, t) else (false, s)
          | [] => (false, s)
          end).
assert (Hp : List.length (snd p) <= List.length s).
{ subst p. destruct s as [|c t]; simpl; [lia|].
  case_if; simpl; lia. }
destruct p as [neg s1]. simpl in Hp.
destruct (int_part s1) as [[ids r1]|] eqn:Ei; [|discriminate].
apply int_part_length in Ei.
pose proof (frac_part_length r1) as Lf.
destruct (frac_part r1) as [frac r2]. simpl in Lf.
pose proof (exp_part_length r2) as Le.
destruct (exp_part r2) as [ex r3]. simpl in Le.
destruct frac, ex; intros E; inversion E; subst; lia.
Qed.

Lemma scan_atom_spec (s : pystr) :
scan_atom s <> SFuel /\
(forall v r, scan_atom s = SOk v r -> List.length r < List.length s).
Proof.
unfold scan_atom.
repeat match goal with
       | |- context [starts_with ?p s] =>
           let E := fresh "E" in
           destruct (starts_with p s) eqn:E;
           [apply starts_with_length in E; simpl in E;
            split; [discriminate | intros ? ? H; inversion H; subst; lia]|]
       | |- context [match_number s] =>
           let E := fresh "E" in
           destruct (match_number s) as [[? ?]|] eqn:E;
           [apply match_number_length in E;
            split; [discriminate | intros ? ? H; inversion H; subst; lia]|]
       end.
split; [discriminate | intros ? ? H; discriminate H].
Qed.

Lemma good_err (b : Prop) (m : string) (s : pystr) : good b (SErr m) s.
Proof. split; [discriminate | intros v r E; discriminate E]. Qed.

Lemma good_ok (b : Prop) (v : pyval) (r s : pystr) :
List.length r < List.length s -> good b (SOk v r) s.
Proof.
intros L. split; [discriminate|]. intros v' r' E. inversion E; subst. exact L.
Qed.

Lemma good_weaken (b b' : Prop) (x : scan pyval) (s s' : pystr) :
good b x s -> (b' -> b) -> List.length s <= List.length s' -> good b' x s'.
Proof.
intros [H1 H2] Hb L. split; [auto|].
intros v r E. apply H2 in E. lia.
Qed.

Lemma scan_fuel_spec (f : nat) :
(forall s, good (2 * List.length s < f) (scan_once f s) s) /\
(forall s pairs,
    good (2 * List.length s + 1 < f) (object_items f s pairs) s) /\
(forall s acc,
    good (2 * List.length s + 1 < f) (array_items f s acc) s).
Proof.
induction f as [|f (IHs & IHo & IHa)].
- repeat split; intros; simpl in *; try lia; try discriminate.
- split; [|split].
  + intros s. simpl scan_once.
    destruct s as [|c s1]; [apply good_err|].
    case_if; [|case_if; [|case_if]].
    * destruct (scanstring_spec (List.length s1) s1 [] (le_n _)) as [H1 H2].
      destruct (scanstring s1 []) as [k r| |] eqn:E;
        [apply good_ok; specialize (H2 k r eq_refl); simpl; lia
        |apply good_err|congruence].
    * pose proof (skip_ws_length s1) as L.
      destruct (skip_ws s1) as [|d s2]; [apply good_err|]. simpl in L.
      case_if; [apply good_ok; simpl; lia|].
      case_if; [|apply good_err].
      apply (good_weaken _ _ _ _ _ (IHo s2 [])); simpl; lia.
    * pose proof (skip_ws_length s1) as L.
      destruct (skip_ws s1) as [|d s2]; [apply good_err|]. simpl in L.
      case_if; [apply good_ok; simpl; lia|].
      apply (good_weaken _ _ _ _ _ (IHa (d :: s2) [])); simpl; lia.
    * destruct (scan_atom_spec (c :: s1)) as [H1 H2].
      split; [intros _; exact H1 | exact H2].
  + intros s pairs. simpl object_items.
    destruct (scanstring_spec (List.length s) s [] (le_n _)) as [H1 H2].
    destruct (scanstring s []) as [key r| |] eqn:E;
      [specialize (H2 key r eq_refl)|apply good_err|congruence].
    pose proof (skip_ws_length r) as L.
    destruct (skip_ws r) as [|c r1]; [apply good_err|]. simpl in L.
    case_if; [|apply good_err].
    pose proof (skip_ws_length r1) as L1.
    destruct (IHs (skip_ws r1)) as [G1 G2].
    destruct (scan_once f (skip_ws r1)) as [v r2| |] eqn:E2;
      [specialize (G2 v r2 eq_refl)|apply good_err
      |split; [intros B; apply G1; lia | intros ? ? X; discriminate X]].
    pose proof (skip_ws_length r2) as L2.
    destruct (skip_ws r2) as [|d r3]; [apply good_err|]. simpl in L2.
    case_if; [apply good_ok; lia|].
    case_if; [|apply good_err].
    pose proof (skip_ws_length r3) as L3.
    destruct (skip_ws r3) as [|q r4]; [apply good_err|]. simpl in L3.
    case_if; [|apply good_err].
    apply (good_weaken _ _ _ _ _ (IHo r4 ((key, v) :: pairs))); lia.
  + intros s acc. simpl array_items.
    destruct (IHs s) as [G1 G2].
    destruct (scan_once f s) as [v r| |] eqn:E;
      [specialize (G2 v r eq_refl)|apply good_err
      |split; [intros B; apply G1; lia | intros ? ? X; discriminate X]].
    pose proof (skip_ws_length r) as L.
    destruct (skip_ws r) as [|d r1]; [apply good_err|]. simpl in L.
    case_if; [apply good_ok; lia|].
    case_if; [|apply good_err].
    pose proof (skip_ws_length r1) as L1.
    apply (good_weaken _ _ _ _ _ (IHa (skip_ws r1) (v :: acc))); lia.
Qed.

(** The budget chosen by [decode] is never exhausted. *)
Lemma scan_once_fuel (s : pystr) :
scan_once (2 * List.length s + 2) (skip_ws s) <> SFuel.
Proof.
destruct (scan_fuel_spec (2 * List.length s + 2)) as [H _].
destruct (H (skip_ws s)) as [H1 _]. apply H1.
pose proof (skip_ws_length s). lia.
Qed.

Lemma decode_raises_only_JSONDecodeError (s : pystr) (e : exn) :
decode s = Raise e -> exists m, e = JSONDecodeError m.
Proof.
unfold decode. pose proof (scan_once_fuel s) as F.
destruct (scan_once (2 * List.length s + 2) (skip_ws s)) as [v r|m|].
- destruct (skip_ws r); [discriminate|].
  intros E; inversion E; eauto.
- intros E; inversion E; eauto.
- congruence.
Qed.

End JsonFacts.

(** ** The field extractor *)

Lemma loads_raises (value : pyval) (e : exn) :
  Json.loads value = Raise e ->
  e = TypeError \/ exists m, e = JSONDecodeError m.
Proof.
  destruct value as [| b | z | x | s | l | d | t]; simpl;
    try (intros E; inversion E; left; reflexivity).
  destruct s as [|c s'].
  - intros E. right.
    exact (JsonFacts.decode_raises_only_JSONDecodeError _ _ E).
  - destruct (N.eq_dec c 65279) as [->|Hc].
    + intros E; inversion E. right. eauto.
    + assert (Hd : forall r, match c with
                             | 65279%N => r
                             | _ => Json.decode (c :: s')
                             end = Raise e ->
                             Json.decode (c :: s') = Raise e \/ r = Raise e).
      { intros r. destruct c as [|p]; auto.
        do 16 (try destruct p as [p|p|]; auto). }
      intros E. apply Hd in E. destruct E as [E|E].
      * right. exact (JsonFacts.decode_raises_only_JSONDecodeError _ _ E).
      * inversion E. right. eauto.
Qed.

Lemma parse_json_column_of_loads (value : pyval) :
  match Json.loads value with
  | Ok (PDict d) => parse_json_column value = Ok (Dict.get total_balance d)
  | Ok _ => parse_json_column value = Ok PNone
  | Raise _ => parse_json_column value = Ok PNone
  end.
Proof.
  unfold parse_json_column.
  destruct (Json.loads value) as [v|e] eqn:E.
  - destruct v; reflexivity.
  - destruct (loads_raises _ _ E) as [->|[m ->]]; reflexivity.
Qed.

Lemma parse_json_column_returns (value : pyval) :
  parse_json_column value = Ok (extracted value).
Proof.
  unfold extracted.
  pose proof (parse_json_column_of_loads value) as H.
  destruct (Json.loads value) as [[]|]; rewrite H; reflexivity.
Qed.

(** C2: on the text of an object whose [total_balance] is 42.5 the
    extractor returns 42.5 (the decimal 425 * 10^-1); on the text
    [not json] it returns [None]; on [None], and on the NaN that stands for
    an empty cell, it returns [None]. *)
Theorem parse_json_column_examples :
  parse_json_column (PStr (balance_json "42.5"))
    = Ok (PFloat (FFin false 425 (-1))) /\
  parse_json_column (PStr (u "not json")) = Ok PNone /\
  parse_json_column PNone = Ok PNone /\
  parse_json_column (PFloat FNaN) = Ok PNone.
Proof. repeat split; vm_compute; reflexivity. Qed.



(** ** Load-time failure *)

Section LoadFailure.

Variable infer_columns :
  list pystr -> list (list (option pystr)) -> list (pystr * list pyval).
Variable to_datetime : list pyval -> pyresult (list (option Z)).

Lemma load_data_missing (fs : filesystem) (w : world) :
  fs csv_path = None ->
  load_data infer_columns fs w
  = (Ok None,
     {| df := df w; page := page w ++ [StError "CSV file not found."] |}).
Proof.
  intros H. unfold load_data, try_except, bind, lift, read_csv.
  rewrite H. reflexivity.
Qed.


Lemma render_load_failed (fs : filesystem) (cause : string) :
  (forall w, load_data infer_columns fs w
             = (Ok None,
                {| df := df w; page := page w ++ [StError cause] |})) ->
  render infer_columns to_datetime fs
  = (Ok tt,
     {| df := None;
        page := page_head ++ [StError cause; no_data_loaded] |}).
Proof.
  intros H. unfold render, script, bind, emit, start.
  cbn [df page app]. rewrite H. reflexivity.
Qed.

(** C4: when the file is missing the loader returns [None], and the page
    holds the title, the introduction and the two failure messages and
    nothing else: no element of the presenter and no chart. *)
Theorem missing_file_renders_nothing (fs : filesystem) :
  fs csv_path = None ->
  (forall w, fst (load_data infer_columns fs w) = Ok None) /\
  render infer_columns to_datetime fs
  = (Ok tt,
     {| df := None;
        page := page_head
                ++ [StError "CSV file not found."; no_data_loaded] |}) /\
  existsb is_rendering (page (snd (render infer_columns to_datetime fs))) = false /\
  (forall k, renders k (page (snd (render infer_columns to_datetime fs))) = false).
Proof.
  intros H.
  assert (R := render_load_failed fs "CSV file not found."
                 (fun w => load_data_missing fs w H)).
  split; [|split; [exact R|split]].
  - intros w. rewrite (load_data_missing fs w H). reflexivity.
  - rewrite R. reflexivity.
  - intros k. rewrite R. reflexivity.
Qed.


End LoadFailure.

(** ** Columns of a table under assignment, selection of rows and removal *)

Lemma pystr_eqb_eq (a b : pystr) : pystr_eqb a b = true <-> a = b.
Proof.
  revert b. induction a as [|x a IH]; intros [|y b]; simpl;
    try (split; [discriminate|discriminate]); [tauto|].
  rewrite andb_true_iff, N.eqb_eq, IH.
  split; [intros [-> ->]; reflexivity | intros E; inversion E; auto].
Qed.

Lemma pystr_eqb_refl (a : pystr) : pystr_eqb a a = true.
Proof. apply pystr_eqb_eq. reflexivity. Qed.

Lemma pystr_eqb_neq (a b : pystr) : a <> b -> pystr_eqb a b = false.
Proof.
  intros H. destruct (pystr_eqb a b) eqn:E; [|reflexivity].
  apply pystr_eqb_eq in E. contradiction.
Qed.

Module FrameFacts.

Import Frame.

Lemma has_assoc (n : pystr) (f : frame) :
  has n f = match assoc n (frame_columns f) with
            | Some _ => true
            | None => false
            end.
Proof.
  unfold has, columns. induction (frame_columns f) as [|[m c] cols IH];
    simpl; [reflexivity|].
  destruct (pystr_eqb n m); simpl; [reflexivity|exact IH].
Qed.

Lemma assoc_assign_same (n : pystr) (c : list pyval) cols :
  assoc n (assign n c cols) = Some c.
Proof.
  induction cols as [|[m c'] cols IH]; simpl.
  - rewrite pystr_eqb_refl. reflexivity.
  - destruct (pystr_eqb n m) eqn:E; simpl; rewrite E; [reflexivity|exact IH].
Qed.

Lemma assoc_assign_other (n m : pystr) (c : list pyval) cols :
  n <> m -> assoc n (assign m c cols) = assoc n cols.
Proof.
  intros H. induction cols as [|[k c'] cols IH]; simpl.
  - rewrite (pystr_eqb_neq _ _ H). reflexivity.
  - destruct (pystr_eqb m k) eqn:E; simpl.
    + apply pystr_eqb_eq in E. subst k.
      rewrite (pystr_eqb_neq _ _ H). reflexivity.
    + rewrite IH. reflexivity.
Qed.

Lemma assoc_map (g : list pyval -> list pyval) (n : pystr) cols :
  assoc n (map (fun nc => (fst nc, g (snd nc))) cols)
  = option_map g (assoc n cols).
Proof.
  induction cols as [|[m c] cols IH]; simpl; [reflexivity|].
  destruct (pystr_eqb n m); [reflexivity|exact IH].
Qed.


Lemma col_set_col_same (n : pystr) (c : list pyval) (f : frame) :
  col n (set_col n c f) = c.
Proof. unfold col, set_col. simpl. rewrite assoc_assign_same. reflexivity. Qed.

Lemma col_set_col_other (n m : pystr) (c : list pyval) (f : frame) :
  n <> m -> col n (set_col m c f) = col n f.
Proof.
  intros H. unfold col, set_col. simpl.
  rewrite (assoc_assign_other _ _ _ _ H). reflexivity.
Qed.

Lemma has_set_col_same (n : pystr) (c : list pyval) (f : frame) :
  has n (set_col n c f) = true.
Proof. rewrite has_assoc. simpl. rewrite assoc_assign_same. reflexivity. Qed.

Lemma has_set_col_other (n m : pystr) (c : list pyval) (f : frame) :
  n <> m -> has n (set_col m c f) = has n f.
Proof.
  intros H. rewrite !has_assoc. simpl.
  rewrite (assoc_assign_other _ _ _ _ H). reflexivity.
Qed.



Lemma has_drop_same (c : pystr) (f : frame) : has c (drop c f) = false.
Proof.
  unfold has, columns, drop. simpl.
  induction (frame_columns f) as [|[m x] cols IH]; simpl; [reflexivity|].
  destruct (pystr_eqb c m) eqn:E; simpl; [exact IH|].
  rewrite E. exact IH.
Qed.

Lemma col_take (n : pystr) (positions : list nat) (f : frame) :
  has n f = true ->
  col n (take positions f)
  = map (fun i => nth i (col n f) PNone) positions.
Proof.
  rewrite has_assoc. unfold col, take. simpl.
  rewrite (assoc_map (fun c => map (fun i => nth i c PNone) positions)).
  destruct (assoc n (frame_columns f)); [reflexivity|discriminate].
Qed.

End FrameFacts.

(** ** The steps of the page, one by one *)

Lemma apply_parse_json_column (c : list pyval) :
  apply parse_json_column c = Ok (map extracted c).
Proof.
  induction c as [|v c IH]; simpl; [reflexivity|].
  rewrite parse_json_column_returns, IH. reflexivity.
Qed.


Ltac run_step :=
  unfold bind, emit, the_df, update_df, lift; cbn [df page].

Ltac page_done :=
  eexists; split;
  [ rewrite <- ?app_assoc; reflexivity
  | intros k; try reflexivity ].

Lemma presenter_run (d : frame) (p : list element) :
  exists els,
    presenter {| df := Some d; page := p |}
    = (Ok tt, {| df := Some d; page := p ++ els |})
    /\ forall k, renders k els = false.
Proof.
  unfold presenter. run_step.
  destruct (Frame.has CURRENCY_CODE d); run_step; page_done.
Qed.

Lemma extract_run (d : frame) (p : list element) :
  exists els,
    extract {| df := Some d; page := p |}
    = (Ok tt, {| df := Some (extract_frame d); page := p ++ els |})
    /\ forall k, renders k els = false.
Proof.
  unfold extract, extract_frame. run_step.
  destruct (Frame.has POST_TRANSACTION_ACCOUNT_BALANCES d); run_step.
  - rewrite apply_parse_json_column. run_step. page_done.
  - page_done.
Qed.

Lemma is_chart_only (j k : nat) (e : element) :
  chart_of e = Some j -> is_chart k e = Nat.eqb k j.
Proof.
  intros H. unfold is_chart. rewrite H. apply Nat.eqb_sym.
Qed.

Section PanelRuns.

Variable to_datetime : list pyval -> pyresult (list (option Z)).

Lemma panel1_run (d : frame) (p : list element) :
  exists els,
    panel1 {| df := Some d; page := p |}
    = (Ok tt, {| df := Some d; page := p ++ els |})
    /\ forall k, renders k els = Nat.eqb k 1 && draws to_datetime 1 d.
Proof.
  unfold panel1, draws. run_step.
  destruct (Frame.has TRANSACTION_AMOUNT d); run_step; page_done;
    unfold renders; simpl; rewrite ?(is_chart_only 1); try reflexivity;
    rewrite ?orb_false_r, ?andb_true_r, ?andb_false_r; reflexivity.
Qed.

Lemma panel2_run (d : frame) (p : list element) :
  exists els,
    panel2 {| df := Some d; page := p |}
    = (Ok tt, {| df := Some d; page := p ++ els |})
    /\ forall k, renders k els = Nat.eqb k 2 && draws to_datetime 2 d.
Proof.
  unfold panel2, draws. run_step.
  destruct (Frame.has TRANSACTION_AMOUNT d && Frame.has CURRENCY_CODE d);
    run_step; page_done;
    unfold renders; simpl; rewrite ?(is_chart_only 2); try reflexivity;
    rewrite ?orb_false_r, ?andb_true_r, ?andb_false_r; reflexivity.
Qed.

Lemma panel3_run (d : frame) (p : list element) :
  exists els,
    panel3 {| df := Some d; page := p |}
    = (Ok tt, {| df := Some d; page := p ++ els |})
    /\ forall k, renders k els = Nat.eqb k 3 && draws to_datetime 3 d.
Proof.
  unfold panel3, draws. run_step.
  destruct (Frame.has MCC d); run_step; page_done;
    unfold renders; simpl; rewrite ?(is_chart_only 3); try reflexivity;
    rewrite ?orb_false_r, ?andb_true_r, ?andb_false_r; reflexivity.
Qed.

Lemma panel4_run (d : frame) (p : list element) :
  exists els,
    panel4 {| df := Some d; page := p |}
    = (Ok tt, {| df := Some d; page := p ++ els |})
    /\ forall k, renders k els = Nat.eqb k 4 && draws to_datetime 4 d.
Proof.
  unfold panel4, draws. run_step.
  destruct (Frame.has TRANSACTION_AMOUNT d && Frame.has total_balance d);
    run_step; page_done;
    unfold renders; simpl; rewrite ?(is_chart_only 4); try reflexivity;
    rewrite ?orb_false_r, ?andb_true_r, ?andb_false_r; reflexivity.
Qed.

End PanelRuns.

Lemma amount_is_not_timestamp : TRANSACTION_AMOUNT <> TIMESTAMP.
Proof. intros E. vm_compute in E. discriminate E. Qed.

Section TimeSeriesRuns.

Variable to_datetime : list pyval -> pyresult (list (option Z)).

Lemma complete_rows_sorted (ts : list (option Z)) (d : frame) :
  Frame.has TRANSACTION_AMOUNT d = true ->
  Resample.complete_rows TIMESTAMP TRANSACTION_AMOUNT (sorted_frame ts d)
  = series_rows ts (Frame.col TRANSACTION_AMOUNT d).
Proof.
  intros HA. unfold Resample.complete_rows, sorted_frame, series_rows,
    Resample.sort_values.
  rewrite FrameFacts.col_set_col_same.
  rewrite !FrameFacts.col_take.
  - rewrite FrameFacts.col_set_col_same.
    rewrite (FrameFacts.col_set_col_other _ _ _ _ amount_is_not_timestamp).
    reflexivity.
  - rewrite (FrameFacts.has_set_col_other _ _ _ _ amount_is_not_timestamp).
    exact HA.
  - apply FrameFacts.has_set_col_same.
Qed.

(** The body of the [try], step by step. *)
Lemma time_series_run (d : frame) (p : list element) :
  Frame.has TRANSACTION_AMOUNT d = true ->
  time_series to_datetime {| df := Some d; page := p |}
  = match to_datetime (Frame.col TIMESTAMP d) with
    | Raise e => (Raise e, {| df := Some d; page := p |})
    | Ok ts =>
        match Resample.resample_daily_sum
                (series_rows ts (Frame.col TRANSACTION_AMOUNT d)) with
        | Raise e =>
            (Raise e, {| df := Some (sorted_frame ts d); page := p |})
        | Ok daily =>
            (Ok tt, {| df := Some (sorted_frame ts d);
                       page := p ++ [StLineChart daily] |})
        end
    end.
Proof.
  intros HA. unfold time_series. run_step.
  destruct (to_datetime (Frame.col TIMESTAMP d)) as [ts|e]; [|reflexivity].
  run_step. fold (sorted_frame ts d).
  rewrite (complete_rows_sorted ts d HA).
  destruct (Resample.resample_daily_sum _); reflexivity.
Qed.


End TimeSeriesRuns.

(** ** Which panels draw, and what removing a column changes *)

Lemma has_extract_frame (n : pystr) (f : frame) :
  n <> total_balance ->
  Frame.has n (extract_frame f) = Frame.has n f.
Proof.
  intros H. unfold extract_frame.
  destruct (Frame.has POST_TRANSACTION_ACCOUNT_BALANCES f); [|reflexivity].
  apply FrameFacts.has_set_col_other, H.
Qed.


Lemma col_extract_frame (n : pystr) (f : frame) :
  n <> total_balance ->
  Frame.col n (extract_frame f) = Frame.col n f.
Proof.
  intros H. unfold extract_frame.
  destruct (Frame.has POST_TRANSACTION_ACCOUNT_BALANCES f); [|reflexivity].
  apply FrameFacts.col_set_col_other, H.
Qed.




Section Panels.

Variable to_datetime : list pyval -> pyresult (list (option Z)).





End Panels.



Lemma missing_file_renders_nothing_witness :
  no_file csv_path = None /\
  existsb is_rendering
    (page (snd (render raw_columns epoch_to_datetime no_file))) = false.
Proof.
  split; [reflexivity|].
  apply (missing_file_renders_nothing raw_columns epoch_to_datetime no_file).
  reflexivity.
Defined.



(** ** The presenter reads only *)

(** C9: the presenter leaves the table as it found it.  On a loaded table
    it completes, having added its elements to the page, and the variable
    [df] holds the very table it held before. *)
Theorem presenter_leaves_table_unchanged (w : world) :
  df (snd (presenter w)) = df w /\
  match df w with
  | Some f =>
      exists els,
        presenter w = (Ok tt, {| df := Some f; page := page w ++ els |})
  | None => True
  end.
Proof.
  destruct w as [[f|] p]; cbn [df page].
  - destruct (presenter_run f p) as (els & E & _).
    rewrite E. split; [reflexivity|]. exists els. reflexivity.
  - split; [reflexivity|exact I].
Qed.

(** ** Errors of the time-series panel *)

Section TimeSeriesErrors.

Variable to_datetime : list pyval -> pyresult (list (option Z)).



End TimeSeriesErrors.


(** ** The daily aggregation *)

Section DailySums.

Local Open Scope Z_scope.

Variable to_datetime : list pyval -> pyresult (list (option Z)).





End DailySums.


(** ** The rows of the loaded table *)

Section Loading.

Variable infer_columns :
  list pystr -> list (list (option pystr)) -> list (pystr * list pyval).





End Loading.



(** * Further properties of the page code *)

(** ** Every step only adds to the page *)

Lemma local_ret {A : Type} (a : A) : local (ret a).
Proof. intros d p. unfold ret, shown_by. cbn. rewrite app_nil_r. reflexivity. Qed.

Lemma local_raise {A : Type} (e : exn) : local (@raise A e).
Proof. intros d p. unfold raise, shown_by. cbn. rewrite app_nil_r. reflexivity. Qed.

Lemma local_lift {A : Type} (r : pyresult A) : local (lift r).
Proof. intros d p. unfold lift, shown_by. cbn. rewrite app_nil_r. reflexivity. Qed.

Lemma local_emit (e : element) : local (emit e).
Proof. intros d p. reflexivity. Qed.

Lemma local_the_df : local the_df.
Proof.
  intros d p. unfold the_df, shown_by. cbn.
  destruct d; cbn; rewrite app_nil_r; reflexivity.
Qed.

Lemma local_update_df (g : frame -> frame) : local (update_df g).
Proof.
  intros d p. unfold update_df, shown_by. cbn.
  destruct d; cbn; rewrite app_nil_r; reflexivity.
Qed.

Lemma local_assign_df (v : option frame) : local (assign_df v).
Proof. intros d p. unfold assign_df, shown_by. cbn. rewrite app_nil_r. reflexivity. Qed.

Lemma local_bind {A B : Type} (c : M A) (k : A -> M B) :
  local c -> (forall a, local (k a)) -> local (bind c k).
Proof.
  intros Hc Hk d p. unfold shown_by, bind.
  rewrite (Hc d p).
  destruct (c {| df := d; page := [] |}) as [[a|e] [d0 q0]] eqn:E;
    unfold shown_by; rewrite ?E; cbn [fst snd df page].
  - rewrite (Hk a d0 (p ++ q0)%list), (Hk a d0 q0). cbn [fst snd df page].
    rewrite app_assoc. reflexivity.
  - reflexivity.
Qed.

Lemma local_try_except {A : Type} (c : M A) (handles : exn -> bool)
      (h : exn -> M A) :
  local c -> (forall e, local (h e)) -> local (try_except c handles h).
Proof.
  intros Hc Hh d p. unfold shown_by, try_except.
  rewrite (Hc d p).
  destruct (c {| df := d; page := [] |}) as [[a|e] [d0 q0]] eqn:E;
    unfold shown_by; rewrite ?E; cbn [fst snd df page].
  - reflexivity.
  - destruct (handles e); [|reflexivity].
    rewrite (Hh e d0 (p ++ q0)%list), (Hh e d0 q0). cbn [fst snd df page].
    rewrite app_assoc. reflexivity.
Qed.

Lemma local_if {A : Type} (b : bool) (c1 c2 : M A) :
  local c1 -> local c2 -> local (if b then c1 else c2).
Proof. destruct b; auto. Qed.

Create HintDb page_local.
#[export] Hint Resolve local_ret local_raise local_lift local_emit local_the_df
  local_update_df local_assign_df local_if : page_local.

Ltac locality :=
  repeat first
    [ apply local_bind; [|intros ?]
    | apply local_try_except; [|intros ?]
    | apply local_if
    | solve [auto with page_local] ].

Lemma local_load_data infer_columns (fs : filesystem) :
  local (load_data infer_columns fs).
Proof. unfold load_data. locality. destruct e; locality. Qed.

Lemma local_presenter : local presenter.
Proof. unfold presenter. locality. Qed.

Lemma local_extract : local extract.
Proof. unfold extract. locality. Qed.

Lemma local_panel1 : local panel1.
Proof. unfold panel1. locality. Qed.

Lemma local_panel2 : local panel2.
Proof. unfold panel2. locality. Qed.

Lemma local_panel3 : local panel3.
Proof. unfold panel3. locality. Qed.

Lemma local_panel4 : local panel4.
Proof. unfold panel4. locality. Qed.

Lemma local_panel5 to_datetime : local (panel5 to_datetime).
Proof. unfold panel5, time_series. locality. Qed.

Lemma local_charts to_datetime : local (charts to_datetime).
Proof.
  unfold charts.
  apply local_bind; [apply local_panel1|intros _].
  apply local_bind; [apply local_panel2|intros _].
  apply local_bind; [apply local_panel3|intros _].
  apply local_bind; [apply local_panel4|intros _].
  apply local_panel5.
Qed.

(** ** What each step shows *)

Lemma presenter_shown (f : frame) (p : list element) :
  presenter {| df := Some f; page := p |}
  = (Ok tt, {| df := Some f; page := p ++ shown_by presenter (Some f) |}).
Proof.
  rewrite local_presenter. unfold shown_by.
  destruct (presenter_run f []) as (els & E & _). rewrite E. reflexivity.
Qed.

Lemma extract_shown (f : frame) (p : list element) :
  extract {| df := Some f; page := p |}
  = (Ok tt, {| df := Some (extract_frame f);
               page := p ++ shown_by extract (Some f) |}).
Proof.
  rewrite local_extract. unfold shown_by.
  destruct (extract_run f []) as (els & E & _). rewrite E. reflexivity.
Qed.

Lemma panel1_shown (f : frame) (p : list element) :
  panel1 {| df := Some f; page := p |}
  = (Ok tt, {| df := Some f; page := p ++ shown_by panel1 (Some f) |}).
Proof.
  rewrite local_panel1. unfold shown_by.
  destruct (panel1_run epoch_to_datetime f []) as (els & E & _).
  rewrite E. reflexivity.
Qed.

Lemma panel2_shown (f : frame) (p : list element) :
  panel2 {| df := Some f; page := p |}
  = (Ok tt, {| df := Some f; page := p ++ shown_by panel2 (Some f) |}).
Proof.
  rewrite local_panel2. unfold shown_by.
  destruct (panel2_run epoch_to_datetime f []) as (els & E & _).
  rewrite E. reflexivity.
Qed.

Lemma panel3_shown (f : frame) (p : list element) :
  panel3 {| df := Some f; page := p |}
  = (Ok tt, {| df := Some f; page := p ++ shown_by panel3 (Some f) |}).
Proof.
  rewrite local_panel3. unfold shown_by.
  destruct (panel3_run epoch_to_datetime f []) as (els & E & _).
  rewrite E. reflexivity.
Qed.

Lemma panel4_shown (f : frame) (p : list element) :
  panel4 {| df := Some f; page := p |}
  = (Ok tt, {| df := Some f; page := p ++ shown_by panel4 (Some f) |}).
Proof.
  rewrite local_panel4. unfold shown_by.
  destruct (panel4_run epoch_to_datetime f []) as (els & E & _).
  rewrite E. reflexivity.
Qed.

Section PageOfTable.

Variable to_datetime : list pyval -> pyresult (list (option Z)).

(** The run of the page code on a table, step after step. *)
Lemma render_table_steps (f : frame) :
  render_table to_datetime f
  = (fst (panel5 to_datetime
            {| df := Some (extract_frame f); page := [] |}),
     {| df := df (snd (panel5 to_datetime
                         {| df := Some (extract_frame f); page := [] |}));
        page := shown_by presenter (Some f)
                ++ shown_by extract (Some f)
                ++ shown_by panel1 (Some (extract_frame f))
                ++ shown_by panel2 (Some (extract_frame f))
                ++ shown_by panel3 (Some (extract_frame f))
                ++ shown_by panel4 (Some (extract_frame f))
                ++ shown_by (panel5 to_datetime)
                     (Some (extract_frame f)) |}).
Proof.
  unfold render_table, charts, bind.
  rewrite presenter_shown, extract_shown, panel1_shown, panel2_shown,
    panel3_shown, panel4_shown, (local_panel5 to_datetime).
  cbn [app]. rewrite <- !app_assoc. reflexivity.
Qed.

Lemma render_table_page (f : frame) :
  page (snd (render_table to_datetime f))
  = (shown_by presenter (Some f)
     ++ shown_by extract (Some f)
     ++ shown_by panel1 (Some (extract_frame f))
     ++ shown_by panel2 (Some (extract_frame f))
     ++ shown_by panel3 (Some (extract_frame f))
     ++ shown_by panel4 (Some (extract_frame f))
     ++ shown_by (panel5 to_datetime) (Some (extract_frame f)))%list.
Proof. rewrite render_table_steps. reflexivity. Qed.

End PageOfTable.

Lemma shown_presenter (f : frame) :
  shown_by presenter (Some f)
  = ([StSubheader "Data Preview";
      StDataframe (Frame.head 5 f);
      StWrite [ShowText "**Shape of the DataFrame:**";
               ShowShape (Frame.nrows f) (Frame.ncols f)];
      StSubheader "DataFrame Info";
      StInfoText f;
      StSubheader "Descriptive Statistics (Numerical Columns)";
      StWrite [ShowDescribe f]]
     ++ if Frame.has CURRENCY_CODE f
        then [StSubheader "Unique Values and Frequency in 'CURRENCY_CODE'";
              StWrite [ShowText "Unique values:";
                       ShowValues (Pandas.unique (Frame.col CURRENCY_CODE f))];
              StWrite [ShowText "Value counts:"];
              StWrite [ShowCounts
                         (Pandas.value_counts (Frame.col CURRENCY_CODE f))]]
        else [StWarning "Column 'CURRENCY_CODE' not found."])%list.
Proof.
  unfold shown_by, presenter. run_step.
  destruct (Frame.has CURRENCY_CODE f); reflexivity.
Qed.

Lemma shown_extract (f : frame) :
  shown_by extract (Some f)
  = if Frame.has POST_TRANSACTION_ACCOUNT_BALANCES f
    then [StSubheader
            "Parsing 'POST_TRANSACTION_ACCOUNT_BALANCES' to Extract total_balance";
          StDataframe
            (Frame.head 5
               (Frame.select
                  [POST_TRANSACTION_ACCOUNT_BALANCES; total_balance]
                  (extract_frame f)))]
    else [StWarning "Column 'POST_TRANSACTION_ACCOUNT_BALANCES' not found."].
Proof.
  unfold shown_by, extract, extract_frame. run_step.
  destruct (Frame.has POST_TRANSACTION_ACCOUNT_BALANCES f); [|reflexivity].
  run_step. rewrite apply_parse_json_column. reflexivity.
Qed.

Lemma shown_panel1 (f : frame) :
  shown_by panel1 (Some f)
  = [StSubheader "1. Distribution of Transaction Amounts";
     if Frame.has TRANSACTION_AMOUNT f
     then StPyplot (Histplot (Pandas.dropna (Frame.col TRANSACTION_AMOUNT f)))
     else StWarning (panel_warning 1)].
Proof.
  unfold shown_by, panel1. run_step.
  destruct (Frame.has TRANSACTION_AMOUNT f); reflexivity.
Qed.

Lemma shown_panel2 (f : frame) :
  shown_by panel2 (Some f)
  = [StSubheader "2. Box Plot of Transaction Amounts by Currency";
     if Frame.has TRANSACTION_AMOUNT f && Frame.has CURRENCY_CODE f
     then StPyplot (Boxplot (Frame.col CURRENCY_CODE f)
                            (Frame.col TRANSACTION_AMOUNT f))
     else StWarning (panel_warning 2)].
Proof.
  unfold shown_by, panel2. run_step.
  destruct (Frame.has TRANSACTION_AMOUNT f && Frame.has CURRENCY_CODE f);
    reflexivity.
Qed.

Lemma shown_panel3 (f : frame) :
  shown_by panel3 (Some f)
  = [StSubheader "3. Top 10 Merchant Category Codes (MCC)";
     if Frame.has MCC f
     then StPyplot (Barplot (firstn 10 (Pandas.value_counts (Frame.col MCC f))))
     else StWarning (panel_warning 3)].
Proof.
  unfold shown_by, panel3. run_step.
  destruct (Frame.has MCC f); reflexivity.
Qed.

Lemma shown_panel4 (f : frame) :
  shown_by panel4 (Some f)
  = [StSubheader "4. Scatter Plot: Transaction Amount vs. Total Balance";
     if Frame.has TRANSACTION_AMOUNT f && Frame.has total_balance f
     then StPyplot (Scatterplot (Frame.col TRANSACTION_AMOUNT f)
                                (Frame.col total_balance f))
     else StWarning (panel_warning 4)].
Proof.
  unfold shown_by, panel4. run_step.
  destruct (Frame.has TRANSACTION_AMOUNT f && Frame.has total_balance f);
    reflexivity.
Qed.

Section TimeSeriesPage.

Variable to_datetime : list pyval -> pyresult (list (option Z)).

(** The time-series panel on a table: what it returns, the table it
    leaves and what it shows. *)
Lemma panel5_outcome (f : frame) :
  panel5 to_datetime {| df := Some f; page := [] |}
  = if Frame.has TRANSACTION_AMOUNT f && Frame.has TIMESTAMP f
    then
      match to_datetime (Frame.col TIMESTAMP f) with
      | Raise e =>
          if is_Exception e
          then (Ok tt, {| df := Some f;
                          page := [time_series_heading;
                                   time_series_error e] |})
          else (Raise e, {| df := Some f; page := [time_series_heading] |})
      | Ok ts =>
          match Resample.resample_daily_sum
                  (series_rows ts (Frame.col TRANSACTION_AMOUNT f)) with
          | Ok daily =>
              (Ok tt, {| df := Some (sorted_frame ts f);
                         page := [time_series_heading; StLineChart daily] |})
          | Raise e =>
              if is_Exception e
              then (Ok tt, {| df := Some (sorted_frame ts f);
                              page := [time_series_heading;
                                       time_series_error e] |})
              else (Raise e, {| df := Some (sorted_frame ts f);
                                page := [time_series_heading] |})
          end
      end
    else (Ok tt, {| df := Some f;
                    page := [time_series_heading;
                             StWarning (panel_warning 5)] |}).
Proof.
  unfold panel5. run_step.
  destruct (Frame.has TRANSACTION_AMOUNT f) eqn:HA; cbn [andb];
    [|reflexivity].
  destruct (Frame.has TIMESTAMP f); [|reflexivity].
  unfold try_except. rewrite (time_series_run _ _ _ HA).
  destruct (to_datetime (Frame.col TIMESTAMP f)) as [ts|e].
  - destruct (Resample.resample_daily_sum _) as [daily|e]; [reflexivity|].
    destruct (is_Exception e); reflexivity.
  - destruct (is_Exception e); reflexivity.
Qed.



End TimeSeriesPage.

(** ** The whole render *)


Section WholeRender.

Variable infer_columns :
  list pystr -> list (list (option pystr)) -> list (pystr * list pyval).
Variable to_datetime : list pyval -> pyresult (list (option Z)).

Lemma local_page_code :
  local (presenter ;; extract ;; charts to_datetime).
Proof.
  apply local_bind; [apply local_presenter|intros _].
  apply local_bind; [apply local_extract|intros _].
  apply local_charts.
Qed.



(** X7: when the reader returns a table, the page is the title and the
    introduction followed by what the page code shows for that table, the
    loader itself shows nothing, and the render ends as the page code
    does. *)
Theorem render_of_loaded_table (fs : filesystem) (f : frame) :
  read_csv infer_columns fs csv_path = Ok f ->
  render infer_columns to_datetime fs
  = (fst (render_table to_datetime f),
     {| df := df (snd (render_table to_datetime f));
        page := page_head ++ page (snd (render_table to_datetime f)) |}).
Proof.
  intros H. unfold render, script, start, load_data, try_except.
  unfold bind at 1 2 3 4 5. unfold emit, lift, ret, assign_df.
  cbn [df page app]. rewrite H. cbn [df page].
  unfold bind at 1. cbn [df page].
  rewrite local_page_code. reflexivity.
Qed.

(** X6: an exception of the reader that [load_data] has no [except]
    clause for leaves the script as it is: the render ends with that
    exception, and the page holds the title and the introduction only, no
    failure message and nothing of the table. *)
Theorem unhandled_load_error_propagates (fs : filesystem) (e : exn) :
  read_csv infer_columns fs csv_path = Raise e ->
  handled_by_load_data e = false ->
  render infer_columns to_datetime fs
  = (Raise e, {| df := None; page := page_head |}).
Proof.
  intros H N. unfold render, script, start, load_data, try_except.
  unfold bind at 1 2 3 4. unfold emit, lift. cbn [df page app].
  rewrite H.
  destruct e; try discriminate N; reflexivity.
Qed.



End WholeRender.

(** ** Warnings, headings and messages on the page *)

Ltac split_guards :=
  repeat match goal with
         | |- context [if ?b then _ else _] => destruct b eqn:?
         | |- context [match ?x with Ok _ => _ | Raise _ => _ end] =>
             destruct x eqn:?
         end.

Ltac settle :=
  split_guards; cbn;
  rewrite ?andb_true_r, ?andb_false_r, ?orb_false_r, ?orb_true_r;
  reflexivity.

Lemma warns_app (m : string) (p q : list element) :
  warns m (p ++ q) = warns m p || warns m q.
Proof. apply existsb_app. Qed.

Lemma warns_presenter (m : string) (f : frame) :
  warns m (shown_by presenter (Some f))
  = String.eqb "Column 'CURRENCY_CODE' not found." m
    && negb (Frame.has CURRENCY_CODE f).
Proof. rewrite shown_presenter. unfold warns. rewrite existsb_app. settle. Qed.

Lemma warns_extract (m : string) (f : frame) :
  warns m (shown_by extract (Some f))
  = String.eqb "Column 'POST_TRANSACTION_ACCOUNT_BALANCES' not found." m
    && negb (Frame.has POST_TRANSACTION_ACCOUNT_BALANCES f).
Proof. rewrite shown_extract. unfold warns. settle. Qed.

Lemma warns_panel1 (m : string) (f : frame) :
  warns m (shown_by panel1 (Some f))
  = String.eqb (panel_warning 1) m && negb (Frame.has TRANSACTION_AMOUNT f).
Proof. rewrite shown_panel1. unfold warns. settle. Qed.

Lemma warns_panel2 (m : string) (f : frame) :
  warns m (shown_by panel2 (Some f))
  = String.eqb (panel_warning 2) m
    && negb (Frame.has TRANSACTION_AMOUNT f && Frame.has CURRENCY_CODE f).
Proof. rewrite shown_panel2. unfold warns. settle. Qed.

Lemma warns_panel3 (m : string) (f : frame) :
  warns m (shown_by panel3 (Some f))
  = String.eqb (panel_warning 3) m && negb (Frame.has MCC f).
Proof. rewrite shown_panel3. unfold warns. settle. Qed.

Lemma warns_panel4 (m : string) (f : frame) :
  warns m (shown_by panel4 (Some f))
  = String.eqb (panel_warning 4) m
    && negb (Frame.has TRANSACTION_AMOUNT f && Frame.has total_balance f).
Proof. rewrite shown_panel4. unfold warns. settle. Qed.

Lemma warns_panel5 (td : list pyval -> pyresult (list (option Z)))
      (m : string) (f : frame) :
  warns m (shown_by (panel5 td) (Some f))
  = String.eqb (panel_warning 5) m
    && negb (Frame.has TRANSACTION_AMOUNT f && Frame.has TIMESTAMP f).
Proof. unfold shown_by. rewrite panel5_outcome. unfold warns. settle. Qed.

Ltac compare_texts :=
  repeat match goal with
         | |- context [String.eqb ?a ?b] =>
             let v := eval vm_compute in (String.eqb a b) in
             change (String.eqb a b) with v
         end.

Section PageContents.

Variable to_datetime : list pyval -> pyresult (list (option Z)).

(** The warnings of a page, by the step that gives each. *)
Lemma warns_page (m : string) (f : frame) :
  warns m (page (snd (render_table to_datetime f)))
  = String.eqb "Column 'CURRENCY_CODE' not found." m
      && negb (Frame.has CURRENCY_CODE f)
    || (String.eqb "Column 'POST_TRANSACTION_ACCOUNT_BALANCES' not found." m
          && negb (Frame.has POST_TRANSACTION_ACCOUNT_BALANCES f)
        || (String.eqb (panel_warning 1) m
              && negb (draws to_datetime 1 (extract_frame f))
            || (String.eqb (panel_warning 2) m
                  && negb (draws to_datetime 2 (extract_frame f))
                || (String.eqb (panel_warning 3) m
                      && negb (draws to_datetime 3 (extract_frame f))
                    || (String.eqb (panel_warning 4) m
                          && negb (draws to_datetime 4 (extract_frame f))
                        || String.eqb (panel_warning 5) m
                             && negb (Frame.has TRANSACTION_AMOUNT
                                        (extract_frame f)
                                      && Frame.has TIMESTAMP
                                           (extract_frame f))))))).
Proof.
  rewrite render_table_page, !warns_app.
  rewrite warns_presenter, warns_extract, warns_panel1, warns_panel2,
    warns_panel3, warns_panel4, warns_panel5.
  reflexivity.
Qed.

(** X1: the page warns that the currency code is not found exactly when
    the loaded table has no such column, and it shows the distinct values
    and the counts of a column exactly when the table has it. *)
Theorem currency_warning_iff_column_absent (f : frame) :
  warns "Column 'CURRENCY_CODE' not found."
        (page (snd (render_table to_datetime f)))
  = negb (Frame.has CURRENCY_CODE f) /\
  existsb shows_values (page (snd (render_table to_datetime f)))
  = Frame.has CURRENCY_CODE f.
Proof.
  split.
  - rewrite warns_page. unfold panel_warning. compare_texts.
    cbn [andb orb]. rewrite orb_false_r. reflexivity.
  - rewrite render_table_page, !existsb_app.
    rewrite shown_presenter, existsb_app.
    assert (E : existsb shows_values (shown_by extract (Some f)) = false)
      by (rewrite shown_extract; settle).
    assert (P1 : forall g, existsb shows_values (shown_by panel1 (Some g)) = false)
      by (intros g; rewrite shown_panel1; settle).
    assert (P2 : forall g, existsb shows_values (shown_by panel2 (Some g)) = false)
      by (intros g; rewrite shown_panel2; settle).
    assert (P3 : forall g, existsb shows_values (shown_by panel3 (Some g)) = false)
      by (intros g; rewrite shown_panel3; settle).
    assert (P4 : forall g, existsb shows_values (shown_by panel4 (Some g)) = false)
      by (intros g; rewrite shown_panel4; settle).
    assert (P5 : forall g, existsb shows_values
                             (shown_by (panel5 to_datetime) (Some g)) = false)
      by (intros g; unfold shown_by; rewrite panel5_outcome; settle).
    rewrite E, P1, P2, P3, P4, P5.
    destruct (Frame.has CURRENCY_CODE f); reflexivity.
Qed.


End PageContents.

Section PanelEndings.

Variable to_datetime : list pyval -> pyresult (list (option Z)).





End PanelEndings.

(** ** Which charts a loaded table gives *)

Section ChartsOfLoadedTable.

Variable to_datetime : list pyval -> pyresult (list (option Z)).




End ChartsOfLoadedTable.

(** ** The derived column *)



(** X3: the extraction step touches no column but [total_balance]: every
    other column is there after it exactly when it was before, with the
    same cells. *)
Theorem extraction_keeps_other_columns
        (f : frame) (p : list element) (n : pystr) :
  n <> total_balance ->
  match df (snd (extract {| df := Some f; page := p |})) with
  | Some f' => Frame.col n f' = Frame.col n f
               /\ Frame.has n f' = Frame.has n f
  | None => False
  end.
Proof.
  intros H. rewrite extract_shown. cbn [snd df].
  split; [apply col_extract_frame|apply has_extract_frame]; exact H.
Qed.

(** ** The plotting panels read only *)

(** X12: each of the first four chart panels leaves the variable [df] and
    the table in it as they were. *)
Theorem plotting_panels_leave_table_unchanged (w : world) :
  df (snd (panel1 w)) = df w /\
  df (snd (panel2 w)) = df w /\
  df (snd (panel3 w)) = df w /\
  df (snd (panel4 w)) = df w.
Proof.
  destruct w as [[f|] p].
  - rewrite panel1_shown, panel2_shown, panel3_shown, panel4_shown.
    repeat split; reflexivity.
  - repeat split; reflexivity.
Qed.

(** ** The sort of the time-series panel *)

Lemma insert_pos_perm (x : nat * option Z) (l : list (nat * option Z)) :
  Permutation (Resample.insert_pos x l) (x :: l).
Proof.
  induction l as [|y l IH]; simpl; [reflexivity|].
  destruct (Resample.key_lt (snd y) (snd x)); [|reflexivity].
  rewrite IH. apply perm_swap.
Qed.

Lemma sort_pos_perm (l : list (nat * option Z)) :
  Permutation (fold_right Resample.insert_pos [] l) l.
Proof.
  induction l as [|x l IH]; simpl; [reflexivity|].
  rewrite insert_pos_perm, IH. reflexivity.
Qed.

Lemma key_lt_asym (a b : option Z) :
  Resample.key_lt a b = true -> Resample.key_lt b a = false.
Proof.
  destruct a as [x|], b as [y|]; simpl; try discriminate; try reflexivity.
  intros H. apply Z.ltb_lt in H. apply Z.ltb_ge. lia.
Qed.

Lemma key_le_trans (a b c : option Z) :
  key_le a b -> key_le b c -> key_le a c.
Proof.
  unfold key_le. destruct a as [x|], b as [y|], c as [z|]; simpl;
    try discriminate; try reflexivity.
  rewrite !Z.ltb_ge. lia.
Qed.

Lemma insert_pos_sorted (x : nat * option Z) (l : list (nat * option Z)) :
  Sorted pos_le l -> Sorted pos_le (Resample.insert_pos x l).
Proof.
  induction l as [|y l IH]; intros S; simpl.
  - repeat constructor.
  - destruct (Resample.key_lt (snd y) (snd x)) eqn:E.
    + inversion S as [|? ? S' Hd]; subst. constructor; [apply IH, S'|].
      destruct l as [|z l]; simpl.
      * constructor. apply key_lt_asym in E. exact E.
      * destruct (Resample.key_lt (snd z) (snd x)).
        -- inversion Hd; subst. constructor. assumption.
        -- constructor. apply key_lt_asym in E. exact E.
    + constructor; [exact S|]. constructor. exact E.
Qed.

Lemma sort_pos_sorted (l : list (nat * option Z)) :
  Sorted pos_le (fold_right Resample.insert_pos [] l).
Proof.
  induction l as [|x l IH]; simpl; [constructor|].
  apply insert_pos_sorted, IH.
Qed.

Lemma combine_seq_nth (keys : list (option Z)) (start : nat) :
  Forall (fun p => nth (fst p - start) keys None = snd p /\ start <= fst p)
         (combine (seq start (List.length keys)) keys).
Proof.
  revert start. induction keys as [|k keys IH]; intros start; simpl;
    constructor.
  - simpl. rewrite Nat.sub_diag. split; [reflexivity|lia].
  - specialize (IH (S start)). rewrite Forall_forall in *.
    intros p Hp. destruct (IH p Hp) as [H1 H2]. split; [|lia].
    simpl. destruct (fst p - start) eqn:D; [lia|].
    replace n with (fst p - S start) by lia. exact H1.
Qed.

Lemma map_fst_combine_seq (keys : list (option Z)) (start : nat) :
  map fst (combine (seq start (List.length keys)) keys)
  = seq start (List.length keys).
Proof.
  revert start. induction keys as [|k keys IH]; intros start; simpl;
    [reflexivity|]. rewrite IH. reflexivity.
Qed.

Lemma argsort_permutation (keys : list (option Z)) :
  Permutation (Resample.argsort keys) (seq 0 (List.length keys)).
Proof.
  unfold Resample.argsort.
  rewrite (sort_pos_perm _). rewrite map_fst_combine_seq. reflexivity.
Qed.

Lemma argsort_sorted (keys : list (option Z)) :
  StronglySorted key_le
    (map (fun i => nth i keys None) (Resample.argsort keys)).
Proof.
  unfold Resample.argsort.
  set (l := combine (seq 0 (List.length keys)) keys).
  assert (F : Forall (fun p => nth (fst p) keys None = snd p)
                     (fold_right Resample.insert_pos [] l)).
  { apply (Permutation_Forall (Permutation_sym (sort_pos_perm l))).
    subst l. eapply Forall_impl; [|apply (combine_seq_nth keys 0)].
    intros p [H _]. rewrite Nat.sub_0_r in H. exact H. }
  rewrite map_map.
  rewrite (map_ext_Forall _ snd F).
  apply Sorted_StronglySorted.
  - intros a b c. apply key_le_trans.
  - pose proof (sort_pos_sorted l) as S.
    induction S as [|p r S IH Hd]; simpl; constructor.
    + apply IH. inversion F; assumption.
    + destruct Hd; simpl; constructor. assumption.
Qed.

Lemma ts_key_of_timestamps (ts : list (option Z)) :
  map Resample.ts_key (map PTimestamp ts) = ts.
Proof. rewrite map_map. apply map_id. Qed.

(** X14: the sort of the time-series panel keeps every row once: the
    table it leaves is the table with the parsed timestamps, its rows
    taken in an order that is a permutation of their positions, and in
    that order the timestamps ascend, the missing ones last. *)
Theorem time_series_sort_keeps_rows (ts : list (option Z)) (f : frame) :
  exists positions,
    sorted_frame ts f
    = Frame.take positions (Frame.set_col TIMESTAMP (map PTimestamp ts) f)
    /\ Permutation positions (seq 0 (List.length ts))
    /\ StronglySorted key_le (map (fun i => nth i ts None) positions).
Proof.
  exists (Resample.argsort ts). split; [|split].
  - unfold sorted_frame, Resample.sort_values.
    rewrite FrameFacts.col_set_col_same, ts_key_of_timestamps. reflexivity.
  - apply argsort_permutation.
  - apply argsort_sorted.
Qed.

(** ** A value of the derived column comes from a field *)


(** ** The daily sums keep the total *)

Section DailyTotals.

Local Open Scope Z_scope.






















Variable to_datetime : list pyval -> pyresult (list (option Z)).


End DailyTotals.

(** ** Concrete runs of the further properties *)

Lemma render_of_loaded_table_witness :
  exists f,
    read_csv raw_columns (file_with short_record) csv_path = Ok f /\
    page (snd (render raw_columns epoch_to_datetime (file_with short_record)))
    = (page_head ++ page (snd (render_table epoch_to_datetime f)))%list.
Proof.
  eexists. split; [reflexivity|].
  rewrite (render_of_loaded_table raw_columns epoch_to_datetime
             (file_with short_record) _ eq_refl).
  reflexivity.
Defined.

Lemma unhandled_load_error_propagates_witness :
  read_csv raw_columns empty_file csv_path = Raise EmptyDataError /\
  render raw_columns epoch_to_datetime empty_file
  = (Raise EmptyDataError, {| df := None; page := page_head |}).
Proof.
  split; [reflexivity|].
  apply (unhandled_load_error_propagates raw_columns epoch_to_datetime
           empty_file EmptyDataError); reflexivity.
Defined.


Lemma extraction_keeps_other_columns_witness :
  MCC <> total_balance /\
  match df (snd (extract {| df := Some full_table; page := [] |})) with
  | Some f' => Frame.col MCC f' = Frame.col MCC full_table
               /\ Frame.has MCC f' = Frame.has MCC full_table
  | None => False
  end.
Proof.
  assert (H : MCC <> total_balance) by (intros E; discriminate E).
  split; [exact H|].
  exact (extraction_keeps_other_columns full_table [] MCC H).
Defined.


